(** * BBC weather scraper: extraction, fetching and reporting

    A shallow embedding of [src/services/BBCWeatherScraper.ts] (class
    [BBCWeatherScraper], [logWeatherForCity], and the stand-alone
    [getCairoWeather]) together with the JavaScript string primitives the
    code relies on, followed by the properties of the extraction and
    error-handling logic.

    The copy of the class in [src/index.ts] is textually the same program
    as the one in [src/services/BBCWeatherScraper.ts]; one embedding serves
    both. *)

From Stdlib Require Import String Ascii DecimalString DecimalNat.
From Stdlib Require Import List ZArith NArith Bool Lia.
Import ListNotations.

Set Implicit Arguments.

Open Scope string_scope.
Open Scope list_scope.

(* ===================================================================== *)
(** ** JavaScript strings *)
(* ===================================================================== *)

(** A JavaScript string is a sequence of UTF-16 code units; [length],
    [slice], [split] and [trim] all count code units.  The degree sign
    U+00B0 is therefore ONE element, as it is for [tempText.slice(0, 3)]. *)
Definition jsstring := list N.

(** Code units of an ASCII literal. *)
Fixpoint lit (s : string) : jsstring :=
  match s with
  | EmptyString => []
  | String c s' => N_of_ascii c :: lit s'
  end.

Definition degree : N := 176.
Definition newline : N := 10.

(** [!s] for a string: only the empty string is falsy. *)
Definition truthy (s : jsstring) : bool :=
  match s with
  | [] => false
  | _ :: _ => true
  end.

(** [a || b] where [a] is a string. *)
Definition orElse (a b : jsstring) : jsstring :=
  if truthy a then a else b.

(** [a || b] where [a] is the result of indexing an array, hence possibly
    [undefined] (here [None]). *)
Definition orElseU (a : option jsstring) (b : jsstring) : jsstring :=
  match a with
  | Some a' => orElse a' b
  | None => b
  end.

(** Relative index resolution of [String.prototype.slice]: a negative index
    counts from the end, and the result is clamped to [0 .. len]. *)
Definition clampIndex (len k : Z) : Z :=
  if (k <? 0)%Z then Z.max (len + k) 0 else Z.min k len.

(** [s.slice(start, end)]; [end_ = None] is the one-argument form. *)
Definition slice (s : jsstring) (start : Z) (end_ : option Z) : jsstring :=
  let len := Z.of_nat (length s) in
  let from := clampIndex len start in
  let to := match end_ with
            | None => len
            | Some e => clampIndex len e
            end in
  if (to <=? from)%Z then []
  else firstn (Z.to_nat (to - from)) (skipn (Z.to_nat from) s).

(** White space and line terminators removed by [String.prototype.trim]. *)
Definition isWhiteSpace (c : N) : bool :=
  ((9 <=? c) && (c <=? 13) || (c =? 32) || (c =? 160) || (c =? 5760)
   || (8192 <=? c) && (c <=? 8202) || (c =? 8232) || (c =? 8233)
   || (c =? 8239) || (c =? 8287) || (c =? 12288) || (c =? 65279))%N.

Fixpoint trimStart (s : jsstring) : jsstring :=
  match s with
  | [] => []
  | c :: s' => if isWhiteSpace c then trimStart s' else s
  end.

Definition trimEnd (s : jsstring) : jsstring := rev (trimStart (rev s)).

Definition trim (s : jsstring) : jsstring := trimEnd (trimStart s).

Fixpoint startsWith (p s : jsstring) : bool :=
  match p, s with
  | [], _ => true
  | _ :: _, [] => false
  | a :: p', b :: s' => (a =? b)%N && startsWith p' s'
  end.

(** [s.includes(p)]: [p] occurs somewhere in [s]. *)
Fixpoint includes (p s : jsstring) : bool :=
  startsWith p s ||
  match s with
  | [] => false
  | _ :: s' => includes p s'
  end.

(** Left-to-right scan of [s.split(sep)] for a non-empty [sep].  [skip]
    counts the code units of a separator occurrence that is still being
    stepped over; the head of the result is the segment under
    construction. *)
Fixpoint splitFrom (sep : jsstring) (skip : nat) (s : jsstring)
  : list jsstring :=
  match s with
  | [] => [[]]
  | c :: s' =>
      match skip with
      | S k => splitFrom sep k s'
      | O =>
          if startsWith sep s
          then [] :: splitFrom sep (length sep - 1) s'
          else match splitFrom sep 0 s' with
               | seg :: rest => (c :: seg) :: rest
               | [] => [[c]]
               end
      end
  end.

(** [s.split(sep)]; an empty separator splits into single code units. *)
Definition split (s sep : jsstring) : list jsstring :=
  match sep with
  | [] => map (fun c => [c]) s
  | _ :: _ => splitFrom sep 0 s
  end.

(** [`${n}`] for a non-negative integer. *)
Definition numberToString (n : nat) : string :=
  NilEmpty.string_of_uint (Nat.to_uint n).

(* ===================================================================== *)
(** ** The cheerio interface used by the scraper *)
(* ===================================================================== *)

(** The scraper sees the parsed page only through selector queries and
    [.text()].  An element is what those calls can observe of it: its text
    content (descendants included) and, for each selector, the descendants
    that [find] returns in document order. *)
#[local] Unset Elimination Schemes.
Inductive Element : Type :=
| mkElement (elemText : jsstring) (elemFind : string -> list Element).
#[local] Set Elimination Schemes.

Definition elemText (e : Element) : jsstring :=
  match e with mkElement t _ => t end.

Definition elemFind (e : Element) : string -> list Element :=
  match e with mkElement _ f => f end.

(** A cheerio selection: matched elements in document order. *)
Definition Selection := list Element.

(** The loaded document [$]: a selector yields the selection it matches. *)
Definition Root := string -> Selection.

(** [sel.text()]: the combined text of the matched elements, the empty
    string when nothing is matched. *)
Definition text (sel : Selection) : jsstring :=
  concat (map elemText sel).

(** [sel.find(selector)]. *)
Definition find (sel : Selection) (selector : string) : Selection :=
  flat_map (fun e => elemFind e selector) sel.

(** [$(element)]: the selection holding just that element. *)
Definition wrap (e : Element) : Selection := [e].

(** [sel.map(fn)] of cheerio: [fn] receives the index and the element, and
    a [null] result ([None]) is left out of the resulting collection.  The
    results are kept at type [option A], which is what [.get()] hands to
    the caller's own [filter]. *)
Fixpoint cheerioMapFrom (A : Type) (fn : nat -> Element -> option A)
  (index : nat) (sel : Selection) : list (option A) :=
  match sel with
  | [] => []
  | e :: sel' =>
      match fn index e with
      | None => cheerioMapFrom fn (S index) sel'
      | Some v => Some v :: cheerioMapFrom fn (S index) sel'
      end
  end.

Definition cheerioMap (A : Type) (fn : nat -> Element -> option A)
  (sel : Selection) : list (option A) :=
  cheerioMapFrom fn 0 sel.

(** [arr.filter(x => x !== null)] with its type guard. *)
Fixpoint filterNotNull (A : Type) (arr : list (option A)) : list A :=
  match arr with
  | [] => []
  | None :: arr' => filterNotNull arr'
  | Some v :: arr' => v :: filterNotNull arr'
  end.

(* ===================================================================== *)
(** ** Exceptions, console and network *)
(* ===================================================================== *)

(** Values that the code throws or catches.  An [AxiosError] is what
    [axios.get] rejects with (no connection, DNS failure, status outside
    2xx); it is an [Error] too.  [NativeError] is any other [Error]
    (a [TypeError], say), [ThrownValue] anything that is not an [Error]. *)
Inductive JSError : Type :=
| AxiosError (message : string)
| NativeError (name message : string)
| ThrownValue (description : string).

Definition isAxiosError (e : JSError) : bool :=
  match e with
  | AxiosError _ => true
  | _ => false
  end.

Definition instanceofError (e : JSError) : bool :=
  match e with
  | AxiosError _ | NativeError _ _ => true
  | ThrownValue _ => false
  end.

(** [error.message]; the code reads it only on an [Error]. *)
Definition message (e : JSError) : string :=
  match e with
  | AxiosError m | NativeError _ m => m
  | ThrownValue _ => "undefined"
  end.

(** Reading property [prop] of [undefined]. *)
Definition readOfUndefined (prop : string) : JSError :=
  NativeError "TypeError"
    ("Cannot read properties of undefined (reading '" ++ prop ++ "')").

Record WeatherCondition : Type := mkWeatherCondition {
  day : jsstring;
  shortForecast : jsstring;
  temperature : jsstring;
  highTemp : jsstring;
  lowTemp : jsstring
}.

Record CityWeatherReport : Type := mkCityWeatherReport {
  city : jsstring;
  weekList : list WeatherCondition
}.

(** Arguments handed to [console.log] / [console.error]. *)
Inductive Printable : Type :=
| PString (s : string)
| PText (s : jsstring)
| PMaybeText (s : option jsstring)
| PError (e : JSError)
| PJson (r : CityWeatherReport).

Inductive ConsoleEntry : Type :=
| Log (args : list Printable)
| Error (args : list Printable).

(** What a run leaves behind: the console lines and the URLs requested,
    both oldest first. *)
Record World : Type := mkWorld {
  console : list ConsoleEntry;
  requests : list string
}.

Definition emptyWorld : World := mkWorld [] [].

(** What [response.data] holds.  axios hands over the body as a string,
    except that a body which is valid JSON is parsed first: a JSON string
    literal still gives a string, any other JSON value ([null], a number,
    a boolean, an array, an object) gives that value, kept here as its
    JSON source text. *)
Inductive ResponseData : Type :=
| DataText (body : jsstring)
| DataValue (json : jsstring).

(** The two libraries the program calls into.  [load] is [cheerio.load] on
    a string, where it parses whatever it is given.  [loadValue] is
    [cheerio.load] on a value that is not a string, where it may throw
    (it does on [null]).  [respond] decides how the network answers a GET,
    given the requests made before it: [response.data], or the error
    [axios.get] rejects with. *)
Record Platform : Type := mkPlatform {
  load : jsstring -> Root;
  loadValue : jsstring -> JSError + Root;
  respond : list string -> string -> JSError + ResponseData
}.

(** The outcome of [cheerio.load(data)]. *)
Definition loadResult (P : Platform) (data : ResponseData) : JSError + Root :=
  match data with
  | DataText body => inr (load P body)
  | DataValue json => loadValue P json
  end.

(** An (async) computation: it ends by returning ([inr]) or throwing
    ([inl]); console lines and requests made before a throw remain. *)
Definition Eff (A : Type) : Type := World -> (JSError + A) * World.

Definition ret (A : Type) (a : A) : Eff A := fun w => (inr a, w).

Definition throw (A : Type) (e : JSError) : Eff A := fun w => (inl e, w).
Arguments throw {A} e.

Definition bind (A B : Type) (m : Eff A) (k : A -> Eff B) : Eff B :=
  fun w =>
    match m w with
    | (inl e, w') => (inl e, w')
    | (inr a, w') => k a w'
    end.

Definition tryCatch (A : Type) (body : Eff A) (handler : JSError -> Eff A)
  : Eff A :=
  fun w =>
    match body w with
    | (inl e, w') => handler e w'
    | (inr a, w') => (inr a, w')
    end.

Declare Scope eff_scope.
Delimit Scope eff_scope with eff.
Notation "x <- m ;; k" := (bind m (fun x => k))
  (at level 100, m at next level, right associativity) : eff_scope.
Notation "m ;; k" := (bind m (fun _ => k))
  (at level 100, right associativity) : eff_scope.

Definition console_log (args : list Printable) : Eff unit :=
  fun w => (inr tt, mkWorld (console w ++ [Log args]) (requests w)).

Definition console_error (args : list Printable) : Eff unit :=
  fun w => (inr tt, mkWorld (console w ++ [Error args]) (requests w)).

(** [await axios.get(url)], yielding [response.data]. *)
Definition axios_get (P : Platform) (url : string) : Eff ResponseData :=
  fun w => (respond P (requests w) url,
            mkWorld (console w) (requests w ++ [url])).

(** [cheerio.load(data)] as a step of a computation. *)
Definition cheerio_load (P : Platform) (data : ResponseData) : Eff Root :=
  fun w => (loadResult P data, w).

(* ===================================================================== *)
(** ** Configuration *)
(* ===================================================================== *)

Definition BBC_WEATHER_BASE_URL : string := "https://www.bbc.com/weather/".

(** The object literal [CITIES], own properties in source order. *)
Definition CITIES : list (string * string) :=
  [ ("cairo", "360630");
    ("mecca", "104515");
    ("abuDhabi", "292968");
    ("london", "2643743");
    ("newYork", "5128581");
    ("brasilia", "3469058") ].

(** The own property [key] of an object literal, [None] when it has
    none. *)
Fixpoint getProperty (obj : list (string * string)) (key : string)
  : option string :=
  match obj with
  | [] => None
  | (k, v) :: obj' => if String.eqb k key then Some v else getProperty obj' key
  end.

(** How a template literal or [+] renders a looked-up property. *)
Definition renderProperty (v : option string) : string :=
  match v with
  | Some s => s
  | None => "undefined"
  end.

(** The members every object literal inherits from [Object.prototype],
    each with the text a template literal renders for it: a native
    function prints as Node prints it, [__proto__] is the prototype object
    itself. *)
Definition objectPrototype : list (string * string) :=
  [ ("constructor", "function Object() { [native code] }");
    ("__defineGetter__", "function __defineGetter__() { [native code] }");
    ("__defineSetter__", "function __defineSetter__() { [native code] }");
    ("hasOwnProperty", "function hasOwnProperty() { [native code] }");
    ("__lookupGetter__", "function __lookupGetter__() { [native code] }");
    ("__lookupSetter__", "function __lookupSetter__() { [native code] }");
    ("isPrototypeOf", "function isPrototypeOf() { [native code] }");
    ("propertyIsEnumerable",
     "function propertyIsEnumerable() { [native code] }");
    ("toString", "function toString() { [native code] }");
    ("valueOf", "function valueOf() { [native code] }");
    ("__proto__", "[object Object]");
    ("toLocaleString", "function toLocaleString() { [native code] }") ].

(** [`${obj[key]}`]: the own property if there is one, else the inherited
    member, else [undefined]. *)
Definition memberText (obj : list (string * string)) (key : string)
  : string :=
  match getProperty obj key with
  | Some v => v
  | None => renderProperty (getProperty objectPrototype key)
  end.

(* ===================================================================== *)
(** ** Class [BBCWeatherScraper] *)
(* ===================================================================== *)

Module BBCWeatherScraper.

Module SELECTORS.
Definition locationName : string := "#wr-location-name-id".
Definition dayCarousel : string := "ol.wr-day-carousel__list li".
Definition dayTitle (index : nat) : string :=
  ("a#daylink-" ++ numberToString index ++ " div.wr-day__title")%string.
Definition forecastDescription (index : nat) : string :=
  ("a#daylink-" ++ numberToString index
     ++ " div.wr-day__content__weather-type-description--opaque")%string.
Definition temperature (index : nat) : string :=
  ("a#daylink-" ++ numberToString index
     ++ " span.wr-value--temperature--c")%string.
End SELECTORS.

(** The object literal returned by [parseTemperature]. *)
Record Temps : Type := mkTemps {
  t_highTemp : jsstring;
  t_lowTemp : jsstring
}.

Definition extractCityName (root : Root) : jsstring :=
  let fullLocationText := trim (text (root SELECTORS.locationName)) in
  orElseU (nth_error (split fullLocationText (lit " - ")) 0) fullLocationText.

Definition parseTemperature (tempText : jsstring) (index : nat) : Temps :=
  if negb (truthy tempText) then mkTemps [] []
  else
    if Nat.eqb index 0
    then mkTemps (slice tempText 0 (Some 3%Z)) (slice tempText 0 (Some 3%Z))
    else mkTemps (slice tempText 0 (Some 3%Z))
                 (orElse (slice tempText 3 None)
                         (slice tempText 0 (Some 3%Z))).

Definition extractDayDetails (elem : Selection) (index : nat)
  : WeatherCondition :=
  let day := trim (text (find elem (SELECTORS.dayTitle index))) in
  let shortForecast :=
    trim (text (find elem (SELECTORS.forecastDescription index))) in
  let temperature :=
    trim (text (find elem (SELECTORS.temperature index))) in
  let temps := parseTemperature temperature index in
  mkWeatherCondition day shortForecast temperature
                     (t_highTemp temps) (t_lowTemp temps).

Definition extractWeeklyForecast (root : Root) : list WeatherCondition :=
  filterNotNull
    (cheerioMap
       (fun index element =>
          if (7 <=? index)%nat then None
          else let elem := wrap element in
               Some (extractDayDetails elem index))
       (root SELECTORS.dayCarousel)).

Definition handleError (error : JSError) : Eff unit :=
  if isAxiosError error
  then console_error [PString "Network Error:"; PString (message error)]
  else if instanceofError error
  then console_error [PString "Parsing Error:"; PString (message error)]
  else console_error [PString "Unknown Error:"; PError error].

Section WithPlatform.
Variable P : Platform.

Definition parseWeatherData (html : jsstring) : CityWeatherReport :=
  let root := load P html in
  let cityName := extractCityName root in
  let weekList := extractWeeklyForecast root in
  mkCityWeatherReport cityName weekList.

(** [parseWeatherData(response.data)]: the same method at its call site,
    where the argument is whatever axios produced.  On a string it is
    [parseWeatherData]; on another value [cheerio.load] decides. *)
Definition parseWeatherDataOf (data : ResponseData) : Eff CityWeatherReport :=
  (root <- cheerio_load P data ;;
   let cityName := extractCityName root in
   let weekList := extractWeeklyForecast root in
   ret (mkCityWeatherReport cityName weekList))%eff.

Definition fetchCityWeather (cityCode : string) : Eff CityWeatherReport :=
  tryCatch
    (let url := (BBC_WEATHER_BASE_URL ++ memberText CITIES cityCode)%string in
     (response <- axios_get P url ;;
      parseWeatherDataOf response)%eff)
    (fun error => (handleError error ;; throw error)%eff).

End WithPlatform.

End BBCWeatherScraper.

(* ===================================================================== *)
(** ** [logWeatherForCity] *)
(* ===================================================================== *)

(** The template literal of the summary, as one string. *)
Definition summaryText (city forecast high low : jsstring) : jsstring :=
  [newline] ++ lit "      City: " ++ city
  ++ [newline] ++ lit "      Today's Forecast: " ++ forecast
  ++ [newline] ++ lit "      High: " ++ high ++ [degree] ++ lit "C"
  ++ [newline] ++ lit "      Low: " ++ low ++ [degree] ++ lit "C"
  ++ [newline] ++ lit "    ".

Definition logWeatherForCity (P : Platform) (cityCode : string) : Eff unit :=
  tryCatch
    (weatherReport <- BBCWeatherScraper.fetchCityWeather P cityCode ;;
     console_log [PString "Weather Report:"; PJson weatherReport] ;;
     let firstDay := nth_error (weekList weatherReport) 0 in
     summary <-
       match firstDay with
       | None => throw (readOfUndefined "shortForecast")
       | Some d =>
           ret (summaryText (city weatherReport) (shortForecast d)
                            (highTemp d) (lowTemp d))
       end ;;
     console_log [PText summary])%eff
    (fun error =>
       console_error
         [PString ("Failed to fetch weather for " ++ cityCode ++ ":");
          PError error]).

(* ===================================================================== *)
(** ** [index.ts]: the entry point *)
(* ===================================================================== *)

(** [Main(...args)]; the rest arguments are not used. *)
Definition Main (P : Platform) (A : Type) (args : list A) : Eff unit :=
  (logWeatherForCity P "newYork" ;; ret tt)%eff.

(** The top-level statement [Main();]. *)
Definition program (P : Platform) : Eff unit := Main P (@nil unit).

(* ===================================================================== *)
(** ** The stand-alone [getCairoWeather] *)
(* ===================================================================== *)

Module Cairo.

Definition urlBBC : string := "https://www.bbc.com/weather/".

Record TDayDetails : Type := mkTDayDetails {
  day : jsstring;
  shortForecast : jsstring;
  temperature : jsstring;
  highTemp : jsstring;
  lowTemp : jsstring
}.

(** [city] receives the result of indexing an array ([arr[0]]), which at
    run time is a string or [undefined]; [None] stands for [undefined]. *)
Record TCityData : Type := mkTCityData {
  city : option jsstring;
  weekList : list TDayDetails
}.

Definition tab : string := String (ascii_of_nat 9) EmptyString.

(** The callback given to [.map]: one list item at position [i]. *)
Definition dayCallback (i : nat) (this : Element) : option TDayDetails :=
  if (7 <=? i)%nat then None
  else
    let elem := wrap this in
    let tempText :=
      trim (text (find elem
        ("a#daylink-" ++ numberToString i
           ++ " span.wr-value--temperature--c")%string)) in
    let dayDetails :=
      mkTDayDetails
        (trim (text (find elem
           ("a#daylink-" ++ numberToString i ++ " div.wr-day__title")%string)))
        (trim (text (find elem
           ("a#daylink-" ++ numberToString i
              ++ " div.wr-day__content__weather-type-description--opaque")%string)))
        tempText [] [] in
    Some
      (if truthy tempText
       then
         let high := slice tempText 0 (Some 3%Z) in
         let low := if Nat.eqb i 0 then high
                    else orElse (slice tempText 3 None) high in
         mkTDayDetails (day dayDetails) (shortForecast dayDetails)
                       (temperature dayDetails) high low
       else dayDetails).

(** The value of [details] once [city] and [weekList] are assigned. *)
Definition scrape (root : Root) : TCityData :=
  let details := mkTCityData (Some []) [] in
  let cityAndShortForecast :=
    split (trim (text (root "#wr-location-name-id"))) (lit " - ") in
  let details := mkTCityData (nth_error cityAndShortForecast 0)
                             (weekList details) in
  let weekList :=
    filterNotNull (cheerioMap dayCallback (root "ol.wr-day-carousel__list li")) in
  mkTCityData (city details) weekList.

(** The result is [Some details], or [None] for [undefined]. *)
Definition getCairoWeather (P : Platform) : Eff (option TCityData) :=
  tryCatch
    (response <- axios_get P (urlBBC ++ memberText CITIES "abuDhabi")%string ;;
     root <- cheerio_load P response ;;
     let details := scrape root in
     first <- match nth_error (weekList details) 0 with
              | None => throw (readOfUndefined "highTemp")
              | Some d => ret d
              end ;;
     console_log [PString "City: "; PMaybeText (city details); PString tab;
                  PText (highTemp first)] ;;
     console_log [PString "Hight: "; PText (highTemp first);
                  PString "Low: "; PText (lowTemp first)] ;;
     ret (Some details))%eff
    (fun error =>
       (console_error [PString "ERROR"; PError error] ;; ret None)%eff).

End Cairo.

(* ===================================================================== *)
(** ** Vocabulary for the statements *)
(* ===================================================================== *)

(** The separator of the location text. *)
Definition separator : jsstring := lit " - ".

(** [f] applied to every element together with its position, positions
    counted from [index]. *)
Fixpoint mapIndexedFrom (A B : Type) (f : nat -> A -> B) (index : nat)
  (l : list A) : list B :=
  match l with
  | [] => []
  | a :: l' => f index a :: mapIndexedFrom f (S index) l'
  end.

(** The request URL that [fetchCityWeather] builds for an identifier. *)
Definition urlOf (cityCode : string) : string :=
  (BBC_WEATHER_BASE_URL ++ memberText CITIES cityCode)%string.

(** The report made from a loaded document. *)
Definition reportOf (root : Root) : CityWeatherReport :=
  mkCityWeatherReport (BBCWeatherScraper.extractCityName root)
                      (BBCWeatherScraper.extractWeeklyForecast root).

(** What the request for [url] and the loading of its answer come to: the
    document, or the error that one of the two steps ends with. *)
Definition fetched (P : Platform) (w : World) (url : string)
  : JSError + Root :=
  match respond P (requests w) url with
  | inl e => inl e
  | inr data => loadResult P data
  end.

(** The arguments [handleError] gives to [console.error]. *)
Definition errorLine (error : JSError) : list Printable :=
  if isAxiosError error
  then [PString "Network Error:"; PString (message error)]
  else if instanceofError error
  then [PString "Parsing Error:"; PString (message error)]
  else [PString "Unknown Error:"; PError error].

(** The arguments of the [console.error] in [logWeatherForCity]. *)
Definition failedLine (cityCode : string) (error : JSError) : list Printable :=
  [PString ("Failed to fetch weather for " ++ cityCode ++ ":"); PError error].

(** The world after one more request and some more console lines. *)
Definition after (w : World) (url : string) (lines : list ConsoleEntry)
  : World :=
  mkWorld (console w ++ lines) (requests w ++ [url]).

(** The URL requested by [getCairoWeather]. *)
Definition cairoUrl : string :=
  (Cairo.urlBBC ++ memberText CITIES "abuDhabi")%string.

(** The arguments of the [console.error] in [getCairoWeather]. *)
Definition cairoErrorLine (error : JSError) : list Printable :=
  [PString "ERROR"; PError error].

(** Field-for-field agreement of the two day records. *)
Definition sameDay (a : Cairo.TDayDetails) (b : WeatherCondition) : Prop :=
  Cairo.day a = day b /\
  Cairo.shortForecast a = shortForecast b /\
  Cairo.temperature a = temperature b /\
  Cairo.highTemp a = highTemp b /\
  Cairo.lowTemp a = lowTemp b.

(* ===================================================================== *)
(** ** Fixtures: small pages and platforms to run the code on *)
(* ===================================================================== *)

Module Fixture.

Definition leaf (t : jsstring) : Element := mkElement t (fun _ => []).

(** A forecast list item whose anchor is [a#daylink-i]. *)
Definition dayItem (i : nat) (title description temp : jsstring) : Element :=
  mkElement (title ++ description ++ temp)
    (fun selector =>
       if String.eqb selector (BBCWeatherScraper.SELECTORS.dayTitle i)
       then [leaf title]
       else if String.eqb selector
                 (BBCWeatherScraper.SELECTORS.forecastDescription i)
       then [leaf description]
       else if String.eqb selector (BBCWeatherScraper.SELECTORS.temperature i)
       then [leaf temp]
       else []).

(** A page with the given location-name elements and forecast items. *)
Definition page (location : list Element) (items : list Element) : Root :=
  fun selector =>
    if String.eqb selector BBCWeatherScraper.SELECTORS.locationName
    then location
    else if String.eqb selector BBCWeatherScraper.SELECTORS.dayCarousel
    then items
    else [].

Definition temp2 : jsstring := lit "18" ++ [degree] ++ lit "11" ++ [degree].
Definition temp1 : jsstring := lit "18" ++ [degree].

Definition tenDays : list Element :=
  [ dayItem 0 (lit "Today") (lit "Sunny") temp2;
    dayItem 1 (lit "Tue") (lit "Sunny") temp2;
    dayItem 2 (lit "Wed") (lit "Cloudy") temp1;
    dayItem 3 (lit "Thu") (lit "Rain") [];
    dayItem 4 (lit "Fri") (lit "Rain") temp2;
    dayItem 5 (lit "Sat") (lit "Fog") temp2;
    dayItem 6 (lit "Sun") (lit "Sunny") temp2;
    dayItem 7 (lit "Mon") (lit "Sunny") temp2;
    dayItem 8 (lit "Tue") (lit "Sunny") temp2;
    dayItem 9 (lit "Wed") (lit "Sunny") temp2 ].

Definition cairoPage : Root :=
  page [leaf (lit "  Cairo - Weather ")] tenDays.

Definition noDaysPage : Root := page [leaf (lit "Cairo - Weather")] [].

Definition blankPage : Root := page [] [].

(** What [cheerio.load(null)] throws. *)
Definition expectsString : JSError :=
  NativeError "Error" "cheerio.load() expects a string".

(** The network answers every request with markup that parses to [root]. *)
Definition serving (root : Root) : Platform :=
  mkPlatform (fun _ => root) (fun _ => inl expectsString)
             (fun _ _ => inr (DataText (lit "<html></html>"))).

(** Every request is rejected by the transport. *)
Definition offline : Platform :=
  mkPlatform (fun _ => blankPage) (fun _ => inl expectsString)
             (fun _ _ => inl (AxiosError "connect ECONNREFUSED")).

(** The network answers every request with the JSON body [null]. *)
Definition answeringNull : Platform :=
  mkPlatform (fun _ => blankPage) (fun _ => inl expectsString)
             (fun _ _ => inr (DataValue (lit "null"))).

End Fixture.

(* ===================================================================== *)
(** ** Facts about the string primitives *)
(* ===================================================================== *)

Lemma slice_0_3 (s : jsstring) : slice s 0 (Some 3%Z) = firstn 3 s.
Proof.
  unfold slice, clampIndex.
  change (0 <? 0)%Z with false. change (3 <? 0)%Z with false. cbv iota.
  set (len := Z.of_nat (length s)).
  assert (Hlen : len = Z.of_nat (length s)) by reflexivity.
  replace (Z.min 0 len) with 0%Z by lia.
  destruct (Z.leb_spec (Z.min 3 len) 0) as [H0|H0].
  - destruct s; [reflexivity|]. simpl length in Hlen. lia.
  - rewrite Z.sub_0_r. change (Z.to_nat 0) with 0. rewrite skipn_O.
    destruct (Z.le_gt_cases 3 len) as [H3|H3].
    + now rewrite Z.min_l by exact H3.
    + rewrite Z.min_r by lia. rewrite !firstn_all2; trivial; lia.
Qed.

Lemma slice_3 (s : jsstring) : slice s 3 None = skipn 3 s.
Proof.
  unfold slice, clampIndex. change (3 <? 0)%Z with false. cbv iota.
  set (len := Z.of_nat (length s)).
  assert (Hlen : len = Z.of_nat (length s)) by reflexivity.
  destruct (Z.leb_spec len (Z.min 3 len)) as [Hle|Hlt].
  - symmetry. apply skipn_all2. lia.
  - rewrite Z.min_l by lia. change (Z.to_nat 3) with 3.
    apply firstn_all2. rewrite length_skipn. lia.
Qed.

Lemma trimStart_app_last (s : jsstring) (c : N) :
  isWhiteSpace c = false -> trimStart (s ++ [c]) = trimStart s ++ [c].
Proof.
  intros Hc. induction s as [|a s IH]; simpl.
  - now rewrite Hc.
  - destruct (isWhiteSpace a); auto.
Qed.

Lemma trimStart_head (s : jsstring) :
  trimStart s = [] \/
  exists c t, trimStart s = c :: t /\ isWhiteSpace c = false.
Proof.
  induction s as [|a s IH]; simpl; auto.
  destruct (isWhiteSpace a) eqn:Ha; auto.
  right. now exists a, s.
Qed.

(** A trimmed string is empty or starts with a code unit that is not white
    space. *)
Lemma trim_head (s : jsstring) :
  trim s = [] \/ exists c t, trim s = c :: t /\ isWhiteSpace c = false.
Proof.
  unfold trim, trimEnd.
  destruct (trimStart_head s) as [E | (c & t & E & Hc)]; rewrite E.
  - now left.
  - right. simpl rev. rewrite (@trimStart_app_last (rev t) c Hc), rev_app_distr.
    simpl. eauto.
Qed.

Lemma startsWith_app (p s : jsstring) :
  startsWith p s = true -> s = p ++ skipn (length p) s.
Proof.
  revert s. induction p as [|a p IH]; intros [|b s]; simpl; try easy.
  intros H. apply andb_true_iff in H. destruct H as [Hab Hp].
  apply N.eqb_eq in Hab. subst b. f_equal. now apply IH.
Qed.

Lemma splitFrom_not_nil (sep : jsstring) (skip : nat) (s : jsstring) :
  splitFrom sep skip s <> [].
Proof.
  revert skip. induction s as [|c s IH]; intros skip; simpl; [easy|].
  destruct skip; [|apply IH].
  destruct (startsWith sep (c :: s)); [easy|].
  destruct (splitFrom sep 0 s); easy.
Qed.

(** Indexing [s.split(sep)[0]] is never [undefined] for a non-empty
    separator. *)
Lemma split_first_defined (s sep : jsstring) :
  sep <> [] -> exists seg, nth_error (split s sep) 0 = Some seg.
Proof.
  intros Hsep. destruct sep as [|a sep]; [easy|]. unfold split.
  destruct (splitFrom (a :: sep) 0 s) as [|seg rest] eqn:E.
  - now apply splitFrom_not_nil in E.
  - now exists seg.
Qed.

(** The separator does not occur: the whole string is the only segment. *)
Lemma splitFrom_absent (sep s : jsstring) :
  includes sep s = false -> splitFrom sep 0 s = [s].
Proof.
  induction s as [|c s IH]; intros H; [reflexivity|].
  cbn [includes] in H. apply orb_false_iff in H. destruct H as [H1 H2].
  cbn [splitFrom]. rewrite H1, (IH H2). reflexivity.
Qed.

(** The separator occurs: the first segment is followed by it. *)
Lemma splitFrom_present (sep s : jsstring) :
  includes sep s = true ->
  exists seg rest more,
    splitFrom sep 0 s = seg :: rest /\ s = seg ++ sep ++ more.
Proof.
  induction s as [|c s IH]; intros H.
  - cbn [includes] in H. rewrite orb_false_r in H.
    exists [], [], []. destruct sep; [|discriminate]. now split.
  - cbn [includes] in H. cbn [splitFrom].
    destruct (startsWith sep (c :: s)) eqn:Hs.
    + exists [], (splitFrom sep (length sep - 1) s),
        (skipn (length sep) (c :: s)).
      split; [reflexivity|]. now apply startsWith_app.
    + simpl in H. destruct (IH H) as (seg & rest & more & E1 & E2).
      rewrite E1. exists (c :: seg), rest, more.
      split; [reflexivity|]. simpl. now f_equal.
Qed.

(** The first segment is empty only for the empty string or for a string
    that starts with the separator. *)
Lemma splitFrom_first_nil (sep s : jsstring) (rest : list jsstring) :
  splitFrom sep 0 s = [] :: rest -> s = [] \/ startsWith sep s = true.
Proof.
  destruct s as [|c s]; [now left|]. cbn [splitFrom].
  destruct (startsWith sep (c :: s)); [now right|].
  destruct (splitFrom sep 0 s); discriminate.
Qed.

(** On trimmed text, [split(' - ')[0] || text] is just [split(' - ')[0]]:
    the first segment is empty only when the text is. *)
Lemma first_segment_of_trimmed (s : jsstring) :
  exists seg,
    nth_error (split (trim s) separator) 0 = Some seg /\
    orElseU (nth_error (split (trim s) separator) 0) (trim s) = seg.
Proof.
  destruct (@split_first_defined (trim s) separator) as [seg Hseg];
    [discriminate|].
  exists seg. split; [exact Hseg|]. rewrite Hseg. simpl. unfold orElse.
  destruct seg as [|a seg]; [|reflexivity]. simpl.
  change (split (trim s) separator) with (splitFrom separator 0 (trim s))
    in Hseg.
  destruct (splitFrom separator 0 (trim s)) as [|seg' rest] eqn:E;
    [discriminate|].
  simpl in Hseg. injection Hseg as ->.
  apply splitFrom_first_nil in E. destruct E as [E|E]; [exact E|].
  destruct (trim_head s) as [T|(c & t & T & Hc)]; [exact T|].
  rewrite T in E. change separator with (32%N :: lit "- ") in E.
  cbn [startsWith] in E. apply andb_true_iff in E. destruct E as [E _].
  apply N.eqb_eq in E. subst c. discriminate.
Qed.

(* ===================================================================== *)
(** ** The forecast list *)
(* ===================================================================== *)

Section First7.
Variable A : Type.
Variable g : nat -> Element -> A.

(** [map] with the [index >= 7] guard, then the null filter, keeps the
    items at positions below 7 and nothing else. *)
Lemma filter_map_first7 (sel : Selection) (k : nat) :
  filterNotNull
    (cheerioMapFrom
       (fun index element =>
          if (7 <=? index)%nat then None else Some (g index element))
       k sel)
  = mapIndexedFrom g k (firstn (7 - k) sel).
Proof.
  revert k. induction sel as [|e sel IH]; intros k.
  - now rewrite firstn_nil.
  - cbn [cheerioMapFrom].
    destruct (Nat.leb_spec 7 k) as [Hk|Hk].
    + rewrite IH. replace (7 - k) with 0 by lia.
      replace (7 - S k) with 0 by lia. reflexivity.
    + cbn [filterNotNull]. rewrite IH.
      replace (7 - k) with (S (7 - S k)) by lia. reflexivity.
Qed.

End First7.

Lemma length_mapIndexedFrom (A B : Type) (f : nat -> A -> B) (l : list A)
  (k : nat) : length (mapIndexedFrom f k l) = length l.
Proof. revert k. induction l; intros k; simpl; auto. Qed.

Lemma nth_error_mapIndexedFrom (A B : Type) (f : nat -> A -> B) (l : list A)
  (k i : nat) :
  nth_error (mapIndexedFrom f k l) i = option_map (f (k + i)) (nth_error l i).
Proof.
  revert k i. induction l as [|a l IH]; intros k [|i]; simpl; trivial.
  - now rewrite Nat.add_0_r.
  - rewrite IH. now rewrite Nat.add_succ_r.
Qed.

Lemma extractWeeklyForecast_eq (root : Root) :
  BBCWeatherScraper.extractWeeklyForecast root
  = mapIndexedFrom
      (fun i e => BBCWeatherScraper.extractDayDetails (wrap e) i) 0
      (firstn 7 (root BBCWeatherScraper.SELECTORS.dayCarousel)).
Proof.
  unfold BBCWeatherScraper.extractWeeklyForecast, cheerioMap.
  apply (filter_map_first7
           (fun i e => BBCWeatherScraper.extractDayDetails (wrap e) i)).
Qed.

(** Every entry of an extracted [weekList] is [extractDayDetails] of the
    list item at the same position, and that position is below 7. *)
Lemma weekList_entry (P : Platform) (html : jsstring) (i : nat)
  (d : WeatherCondition) :
  nth_error (weekList (BBCWeatherScraper.parseWeatherData P html)) i = Some d ->
  i < 7 /\
  exists e,
    nth_error (load P html BBCWeatherScraper.SELECTORS.dayCarousel) i = Some e
    /\ d = BBCWeatherScraper.extractDayDetails (wrap e) i.
Proof.
  unfold BBCWeatherScraper.parseWeatherData. cbn [weekList].
  rewrite extractWeeklyForecast_eq, nth_error_mapIndexedFrom. intros H.
  destruct (nth_error (firstn 7 _) i) as [e|] eqn:E; [|discriminate].
  injection H as <-.
  assert (Hi : i < 7).
  { assert (Hlt : i < length (firstn 7
       (load P html BBCWeatherScraper.SELECTORS.dayCarousel)))
      by (apply nth_error_Some; congruence).
    rewrite length_firstn in Hlt. lia. }
  split; [exact Hi|]. exists e. split; [|reflexivity].
  now rewrite nth_error_firstn, (proj2 (Nat.ltb_lt _ _) Hi) in E.
Qed.

Lemma entry_temps (e : Selection) (i : nat) :
  let d := BBCWeatherScraper.extractDayDetails e i in
  highTemp d
    = BBCWeatherScraper.t_highTemp
        (BBCWeatherScraper.parseTemperature (temperature d) i)
  /\ lowTemp d
    = BBCWeatherScraper.t_lowTemp
        (BBCWeatherScraper.parseTemperature (temperature d) i).
Proof. split; reflexivity. Qed.

(* ===================================================================== *)
(** ** Temperature decomposition *)
(* ===================================================================== *)

Lemma parseTemperature_nil (i : nat) :
  BBCWeatherScraper.parseTemperature [] i = BBCWeatherScraper.mkTemps [] [].
Proof. reflexivity. Qed.

Lemma parseTemperature_today (t : jsstring) :
  t <> [] ->
  BBCWeatherScraper.parseTemperature t 0
  = BBCWeatherScraper.mkTemps (firstn 3 t) (firstn 3 t).
Proof.
  intros Ht. unfold BBCWeatherScraper.parseTemperature.
  destruct t; [easy|]. cbn [truthy negb Nat.eqb]. now rewrite slice_0_3.
Qed.

Lemma parseTemperature_later (t : jsstring) (i : nat) :
  t <> [] -> 0 < i ->
  BBCWeatherScraper.parseTemperature t i
  = BBCWeatherScraper.mkTemps (firstn 3 t) (orElse (skipn 3 t) (firstn 3 t)).
Proof.
  intros Ht Hi. unfold BBCWeatherScraper.parseTemperature.
  destruct t; [easy|]. cbn [truthy negb].
  destruct i; [lia|]. cbn [Nat.eqb]. now rewrite slice_0_3, slice_3.
Qed.

Lemma parseTemperature_cases (t : jsstring) (i : nat) :
  let r := BBCWeatherScraper.parseTemperature t i in
  (t = [] ->
   BBCWeatherScraper.t_highTemp r = []
   /\ BBCWeatherScraper.t_lowTemp r = [])
  /\ (t <> [] ->
      BBCWeatherScraper.t_highTemp r = firstn 3 t
      /\ length (BBCWeatherScraper.t_highTemp r) = Nat.min 3 (length t))
  /\ (i = 0 ->
      BBCWeatherScraper.t_lowTemp r = BBCWeatherScraper.t_highTemp r)
  /\ (0 < i -> skipn 3 t <> [] ->
      BBCWeatherScraper.t_lowTemp r = skipn 3 t)
  /\ (0 < i -> skipn 3 t = [] ->
      BBCWeatherScraper.t_lowTemp r = BBCWeatherScraper.t_highTemp r).
Proof.
  cbv zeta. destruct t as [|c t].
  - rewrite parseTemperature_nil. cbn. repeat split; trivial; easy.
  - assert (Ht : c :: t <> []) by easy. destruct i as [|i].
    + rewrite (parseTemperature_today Ht).
      cbn [BBCWeatherScraper.t_highTemp BBCWeatherScraper.t_lowTemp].
      repeat split; trivial; try easy; try lia.
      now rewrite length_firstn.
    + assert (Hi : 0 < S i) by lia.
      rewrite (parseTemperature_later Ht Hi).
      cbn [BBCWeatherScraper.t_highTemp BBCWeatherScraper.t_lowTemp].
      repeat split; trivial; try easy.
      * now rewrite length_firstn.
      * intros _ Hrest. unfold orElse.
        destruct (skipn 3 (c :: t)); [easy|reflexivity].
      * intros _ Hrest. now rewrite Hrest.
Qed.

Lemma entry_decomposition (P : Platform) (html : jsstring) (i : nat)
  (d : WeatherCondition) :
  nth_error (weekList (BBCWeatherScraper.parseWeatherData P html)) i = Some d ->
  highTemp d
  = BBCWeatherScraper.t_highTemp
      (BBCWeatherScraper.parseTemperature (temperature d) i)
  /\ lowTemp d
     = BBCWeatherScraper.t_lowTemp
         (BBCWeatherScraper.parseTemperature (temperature d) i).
Proof.
  intros H. apply weekList_entry in H. destruct H as (_ & e & _ & ->).
  apply entry_temps.
Qed.

Lemma first_entry_duplicated (P : Platform) (html : jsstring)
  (d : WeatherCondition) :
  nth_error (weekList (BBCWeatherScraper.parseWeatherData P html)) 0 = Some d ->
  highTemp d = lowTemp d.
Proof.
  intros H. destruct (entry_decomposition _ _ _ H) as [-> ->].
  symmetry.
  exact (proj1 (proj2 (proj2 (parseTemperature_cases (temperature d) 0)))
               eq_refl).
Qed.

(** C1. Temperature decomposition: an empty token gives two empty fields;
    otherwise [highTemp] is the first three code units of the token (all of
    it when it is shorter); at index 0 [lowTemp] equals [highTemp]; at a
    later index [lowTemp] is what follows the first three code units when
    that is non-empty and [highTemp] otherwise.  The four sample tokens
    decompose as listed, every entry of an extracted report carries the
    decomposition of its own token at its own index, and the entry at
    index 0 of any extracted report has equal [highTemp] and [lowTemp]. *)
Theorem temperature_decomposition :
  (forall (t : jsstring) (i : nat),
      let r := BBCWeatherScraper.parseTemperature t i in
      (t = [] ->
       BBCWeatherScraper.t_highTemp r = []
       /\ BBCWeatherScraper.t_lowTemp r = [])
      /\ (t <> [] ->
          BBCWeatherScraper.t_highTemp r = firstn 3 t
          /\ length (BBCWeatherScraper.t_highTemp r) = Nat.min 3 (length t))
      /\ (i = 0 ->
          BBCWeatherScraper.t_lowTemp r = BBCWeatherScraper.t_highTemp r)
      /\ (0 < i -> skipn 3 t <> [] ->
          BBCWeatherScraper.t_lowTemp r = skipn 3 t)
      /\ (0 < i -> skipn 3 t = [] ->
          BBCWeatherScraper.t_lowTemp r = BBCWeatherScraper.t_highTemp r))
  /\ BBCWeatherScraper.parseTemperature
       (lit "18" ++ [degree] ++ lit "11" ++ [degree]) 0
     = BBCWeatherScraper.mkTemps (lit "18" ++ [degree]) (lit "18" ++ [degree])
  /\ BBCWeatherScraper.parseTemperature
       (lit "18" ++ [degree] ++ lit "11" ++ [degree]) 2
     = BBCWeatherScraper.mkTemps (lit "18" ++ [degree]) (lit "11" ++ [degree])
  /\ BBCWeatherScraper.parseTemperature (lit "18" ++ [degree]) 2
     = BBCWeatherScraper.mkTemps (lit "18" ++ [degree]) (lit "18" ++ [degree])
  /\ (forall i, BBCWeatherScraper.parseTemperature [] i
                = BBCWeatherScraper.mkTemps [] [])
  /\ (forall (P : Platform) (html : jsstring) (i : nat) (d : WeatherCondition),
         nth_error (weekList (BBCWeatherScraper.parseWeatherData P html)) i
         = Some d ->
         highTemp d
         = BBCWeatherScraper.t_highTemp
             (BBCWeatherScraper.parseTemperature (temperature d) i)
         /\ lowTemp d
            = BBCWeatherScraper.t_lowTemp
                (BBCWeatherScraper.parseTemperature (temperature d) i))
  /\ (forall (P : Platform) (html : jsstring) (d : WeatherCondition),
         nth_error (weekList (BBCWeatherScraper.parseWeatherData P html)) 0
         = Some d ->
         highTemp d = lowTemp d).
Proof.
  split; [exact parseTemperature_cases|].
  do 4 (split; [reflexivity|]).
  split; [exact entry_decomposition|exact first_entry_duplicated].
Qed.

(** The decomposition run on the first item of the ten-day fixture. *)
Lemma temperature_decomposition_witness :
  exists d,
    nth_error
      (weekList (BBCWeatherScraper.parseWeatherData
                   (Fixture.serving Fixture.cairoPage) [])) 0 = Some d
    /\ highTemp d = lowTemp d
    /\ highTemp d = lit "18" ++ [degree].
Proof.
  eexists. split; [reflexivity|]. split.
  - apply (proj2 (proj2 (proj2 (proj2 (proj2 (proj2
             temperature_decomposition)))))
             (Fixture.serving Fixture.cairoPage) []).
    reflexivity.
  - reflexivity.
Defined.

Lemma firstn_min_length (A : Type) (n : nat) (l : list A) :
  firstn (Nat.min n (length l)) l = firstn n l.
Proof. now rewrite <- firstn_firstn, firstn_all. Qed.

(** C9. In every entry of an extracted report, [highTemp] is the first
    min(3, length) code units of the entry's temperature token, hence a
    prefix of it, and empty exactly when the token is empty; [lowTemp] is
    non-empty whenever the token is. *)
Theorem highTemp_is_prefix_of_temperature :
  forall (P : Platform) (html : jsstring) (i : nat) (d : WeatherCondition),
    nth_error (weekList (BBCWeatherScraper.parseWeatherData P html)) i = Some d ->
    highTemp d
    = firstn (Nat.min 3 (length (temperature d))) (temperature d)
    /\ (exists rest, temperature d = highTemp d ++ rest)
    /\ (highTemp d = [] <-> temperature d = [])
    /\ (temperature d <> [] -> lowTemp d <> []).
Proof.
  intros P html i d H.
  destruct (entry_decomposition _ _ _ H) as [Hh Hl].
  rewrite firstn_min_length.
  destruct (temperature d) as [|c t] eqn:Et.
  - rewrite parseTemperature_nil in Hh, Hl. cbn in Hh, Hl.
    rewrite Hh, Hl. repeat split; trivial. now exists [].
  - assert (Ht : c :: t <> []) by easy.
    assert (Hh' : highTemp d = firstn 3 (c :: t)).
    { rewrite Hh. now apply parseTemperature_cases. }
    split; [exact Hh'|]. split; [|split].
    + exists (skipn 3 (c :: t)). rewrite Hh'. symmetry. apply firstn_skipn.
    + rewrite Hh'. split; intros E; discriminate E.
    + intros _. destruct i as [|i].
      * rewrite (parseTemperature_today Ht) in Hl. cbn in Hl.
        rewrite Hl. discriminate.
      * rewrite (@parseTemperature_later (c :: t) (S i) Ht) in Hl by lia.
        cbn [BBCWeatherScraper.t_lowTemp] in Hl. rewrite Hl. unfold orElse.
        destruct (skipn 3 (c :: t)); discriminate.
Qed.

(** The third entry of the ten-day fixture has the token ["18 deg"]. *)
Lemma highTemp_is_prefix_of_temperature_witness :
  exists d,
    nth_error
      (weekList (BBCWeatherScraper.parseWeatherData
                   (Fixture.serving Fixture.cairoPage) [])) 2 = Some d
    /\ (temperature d <> [] -> lowTemp d <> []).
Proof.
  eexists. split; [reflexivity|].
  apply (highTemp_is_prefix_of_temperature
           (Fixture.serving Fixture.cairoPage) [] 2).
  reflexivity.
Defined.

(* ===================================================================== *)
(** ** Length and order of the forecast list *)
(* ===================================================================== *)

Lemma weekList_nth (P : Platform) (html : jsstring) (i : nat) :
  i < 7 ->
  nth_error (weekList (BBCWeatherScraper.parseWeatherData P html)) i
  = option_map
      (fun e => BBCWeatherScraper.extractDayDetails (wrap e) i)
      (nth_error (load P html BBCWeatherScraper.SELECTORS.dayCarousel) i).
Proof.
  intros Hi. unfold BBCWeatherScraper.parseWeatherData. cbn [weekList].
  rewrite extractWeeklyForecast_eq, nth_error_mapIndexedFrom, nth_error_firstn.
  now rewrite (proj2 (Nat.ltb_lt _ _) Hi).
Qed.

(** C2. The [weekList] of an extracted report never has more than 7
    entries: it is made, in document order, from the first 7 list items;
    entry [i] comes from item [i], and no item at position 7 or later has
    an entry.  A page with 10 items gives exactly 7 entries. *)
Theorem weekList_keeps_first_seven :
  forall (P : Platform) (html : jsstring),
    let items := load P html BBCWeatherScraper.SELECTORS.dayCarousel in
    let week := weekList (BBCWeatherScraper.parseWeatherData P html) in
    length week <= 7
    /\ length week = Nat.min 7 (length items)
    /\ week = mapIndexedFrom
                (fun i e => BBCWeatherScraper.extractDayDetails (wrap e) i) 0
                (firstn 7 items)
    /\ (forall i, i < 7 ->
          nth_error week i
          = option_map
              (fun e => BBCWeatherScraper.extractDayDetails (wrap e) i)
              (nth_error items i))
    /\ (forall i, 7 <= i -> nth_error week i = None)
    /\ (length items = 10 -> length week = 7).
Proof.
  intros P html items week.
  assert (E : week = mapIndexedFrom
                (fun i e => BBCWeatherScraper.extractDayDetails (wrap e) i) 0
                (firstn 7 items)) by apply extractWeeklyForecast_eq.
  assert (L : length week = Nat.min 7 (length items)).
  { rewrite E, length_mapIndexedFrom. apply length_firstn. }
  repeat split; trivial; try lia.
  - intros i Hi. now apply weekList_nth.
  - intros i Hi. apply nth_error_None. lia.
Qed.

(** Ten list items on the page, seven entries in the report. *)
Lemma weekList_keeps_first_seven_witness :
  length (Fixture.cairoPage BBCWeatherScraper.SELECTORS.dayCarousel) = 10
  /\ length (weekList (BBCWeatherScraper.parseWeatherData
                         (Fixture.serving Fixture.cairoPage) [])) = 7
  /\ map day (weekList (BBCWeatherScraper.parseWeatherData
                          (Fixture.serving Fixture.cairoPage) []))
     = [lit "Today"; lit "Tue"; lit "Wed"; lit "Thu"; lit "Fri"; lit "Sat";
        lit "Sun"].
Proof.
  split; [reflexivity|]. split; [|reflexivity].
  apply (weekList_keeps_first_seven (Fixture.serving Fixture.cairoPage) []).
  reflexivity.
Defined.

(* ===================================================================== *)
(** ** City name *)
(* ===================================================================== *)

Lemma extractCityName_first_segment (root : Root) :
  nth_error
    (split (trim (text (root BBCWeatherScraper.SELECTORS.locationName)))
           separator) 0
  = Some (BBCWeatherScraper.extractCityName root).
Proof.
  unfold BBCWeatherScraper.extractCityName. cbv zeta.
  destruct (first_segment_of_trimmed
              (text (root BBCWeatherScraper.SELECTORS.locationName)))
    as (seg & H1 & H2).
  fold separator. now rewrite H2.
Qed.

Lemma extractCityName_absent (root : Root) :
  root BBCWeatherScraper.SELECTORS.locationName = [] ->
  BBCWeatherScraper.extractCityName root = [].
Proof.
  intros H. unfold BBCWeatherScraper.extractCityName. now rewrite H.
Qed.

(** C3. The city of an extracted report is the first segment of the
    trimmed location text split on [" - "]; without the separator it is the
    whole trimmed text, with it the text is the city followed by the
    separator; with no location element it is the empty string.  The
    texts ["London - Forecast"] and ["Brasilia"] give ["London"] and
    ["Brasilia"]. *)
Theorem city_is_first_segment :
  forall (P : Platform) (html : jsstring),
    let located := load P html BBCWeatherScraper.SELECTORS.locationName in
    let full := trim (text located) in
    let name := city (BBCWeatherScraper.parseWeatherData P html) in
    nth_error (split full separator) 0 = Some name
    /\ (includes separator full = false -> name = full)
    /\ (includes separator full = true ->
        exists more, full = name ++ separator ++ more)
    /\ (located = [] -> name = [])
    /\ (text located = lit "London - Forecast" -> name = lit "London")
    /\ (text located = lit "Brasilia" -> name = lit "Brasilia").
Proof.
  intros P html located full name.
  assert (H : nth_error (split full separator) 0 = Some name)
    by apply extractCityName_first_segment.
  split; [exact H|]. change (split full separator)
    with (splitFrom separator 0 full) in H.
  split; [|split; [|split; [|split]]].
  - intros Habs. rewrite (splitFrom_absent _ _ Habs) in H. now injection H.
  - intros Hpres.
    destruct (splitFrom_present _ _ Hpres) as (seg & rest & more & E1 & E2).
    rewrite E1 in H. injection H as <-. now exists more.
  - intros Hnone. now apply extractCityName_absent.
  - intros Htext. subst full. rewrite Htext in H. now injection H.
  - intros Htext. subst full. rewrite Htext in H. now injection H.
Qed.

(** The fixture page, whose location element reads ["  Cairo - Weather "]. *)
Lemma city_is_first_segment_witness :
  city (BBCWeatherScraper.parseWeatherData
          (Fixture.serving Fixture.cairoPage) []) = lit "Cairo"
  /\ city (BBCWeatherScraper.parseWeatherData
             (Fixture.serving
                (Fixture.page [Fixture.leaf (lit "London - Forecast")] []))
             []) = lit "London"
  /\ city (BBCWeatherScraper.parseWeatherData
             (Fixture.serving Fixture.blankPage) []) = [].
Proof.
  split; [reflexivity|]. split.
  - apply (city_is_first_segment
             (Fixture.serving
                (Fixture.page [Fixture.leaf (lit "London - Forecast")] []))
             []).
    reflexivity.
  - apply (city_is_first_segment (Fixture.serving Fixture.blankPage) []).
    reflexivity.
Defined.

(* ===================================================================== *)
(** ** Runs of the effectful code *)
(* ===================================================================== *)

Lemma handleError_run (error : JSError) (w : World) :
  BBCWeatherScraper.handleError error w
  = (inr tt, mkWorld (console w ++ [Error (errorLine error)]) (requests w)).
Proof.
  unfold BBCWeatherScraper.handleError, errorLine.
  destruct (isAxiosError error); [reflexivity|].
  destruct (instanceofError error); reflexivity.
Qed.

Lemma memberText_own (obj : list (string * string)) (key v : string) :
  getProperty obj key = Some v -> memberText obj key = v.
Proof. intros H. unfold memberText. now rewrite H. Qed.

Lemma fetched_rejected (P : Platform) (w : World) (url : string)
  (e : JSError) :
  respond P (requests w) url = inl e -> fetched P w url = inl e.
Proof. intros H. unfold fetched. now rewrite H. Qed.

Lemma fetched_text (P : Platform) (w : World) (url : string)
  (html : jsstring) :
  respond P (requests w) url = inr (DataText html) ->
  fetched P w url = inr (load P html).
Proof. intros H. unfold fetched. now rewrite H. Qed.

(** One call of [fetchCityWeather]: one request; the report when the
    request is answered and the answer loads; otherwise one console line
    and the same error thrown again. *)
Lemma fetchCityWeather_run (P : Platform) (cityCode : string) (w : World) :
  BBCWeatherScraper.fetchCityWeather P cityCode w
  = match fetched P w (urlOf cityCode) with
    | inr root => (inr (reportOf root), after w (urlOf cityCode) [])
    | inl e => (inl e, after w (urlOf cityCode) [Error (errorLine e)])
    end.
Proof.
  unfold BBCWeatherScraper.fetchCityWeather, tryCatch, bind, axios_get, after,
    BBCWeatherScraper.parseWeatherDataOf, cheerio_load, fetched.
  fold (urlOf cityCode).
  destruct (respond P (requests w) (urlOf cityCode)) as [e|data].
  - rewrite handleError_run. reflexivity.
  - destruct (loadResult P data) as [e|root]; unfold bind, ret;
      cbv beta iota zeta.
    + rewrite handleError_run. reflexivity.
    + cbn. now rewrite app_nil_r.
Qed.

Lemma logWeatherForCity_run (P : Platform) (cityCode : string) (w : World) :
  logWeatherForCity P cityCode w
  = match fetched P w (urlOf cityCode) with
    | inl e =>
        (inr tt, after w (urlOf cityCode)
                   [Error (errorLine e); Error (failedLine cityCode e)])
    | inr root =>
        let report := reportOf root in
        match nth_error (weekList report) 0 with
        | None =>
            (inr tt, after w (urlOf cityCode)
                       [Log [PString "Weather Report:"; PJson report];
                        Error (failedLine cityCode
                                 (readOfUndefined "shortForecast"))])
        | Some d =>
            (inr tt, after w (urlOf cityCode)
                       [Log [PString "Weather Report:"; PJson report];
                        Log [PText (summaryText (city report)
                                      (shortForecast d) (highTemp d)
                                      (lowTemp d))]])
        end
    end.
Proof.
  unfold logWeatherForCity, tryCatch, bind. rewrite fetchCityWeather_run.
  destruct (fetched P w (urlOf cityCode)) as [e|root].
  - unfold console_error, after, failedLine. cbn.
    now rewrite <- app_assoc.
  - cbv zeta.
    destruct (nth_error (weekList (reportOf root)) 0) as [d|];
      unfold console_log, console_error, ret, throw, after, failedLine; cbn;
      now rewrite app_nil_r, <- app_assoc.
Qed.

Lemma find_wrap_absent (e : Element) (selector : string) :
  elemFind e selector = [] -> trim (text (find (wrap e) selector)) = [].
Proof. intros H. unfold find, wrap. cbn. now rewrite H. Qed.

Lemma parseWeatherDataOf_run (P : Platform) (data : ResponseData) (w : World) :
  BBCWeatherScraper.parseWeatherDataOf P data w
  = match loadResult P data with
    | inl e => (inl e, w)
    | inr root => (inr (reportOf root), w)
    end.
Proof.
  unfold BBCWeatherScraper.parseWeatherDataOf, bind, cheerio_load, ret.
  now destruct (loadResult P data).
Qed.

(** C4. Extraction returns a report for every markup text and never
    throws.  Given any text, [parseWeatherData] at its call site returns
    the report, throwing nothing and writing nothing; when it does throw,
    its argument was not text but another value, and the error is the one
    [cheerio.load] threw on it.  So a fetch whose request is answered with
    text ends with the report of that text and a silent console.  The only
    array indexing in extraction, the first segment of the location text,
    is always defined; a page without location element gives the empty
    city; a page without list items gives the empty list; and a list item
    lacking a sub-element gives the empty string in the fields read from
    it. *)
Theorem extraction_never_throws :
  forall (P : Platform) (html : jsstring),
    let report := BBCWeatherScraper.parseWeatherData P html in
    let items := load P html BBCWeatherScraper.SELECTORS.dayCarousel in
    (forall (w : World),
        BBCWeatherScraper.parseWeatherDataOf P (DataText html) w
        = (inr report, w))
    /\ (forall (data : ResponseData) (w : World) (e : JSError),
          fst (BBCWeatherScraper.parseWeatherDataOf P data w) = inl e ->
          exists json, data = DataValue json /\ loadValue P json = inl e)
    /\ (forall (cityCode : string) (w : World),
          respond P (requests w) (urlOf cityCode) = inr (DataText html) ->
          BBCWeatherScraper.fetchCityWeather P cityCode w
          = (inr report,
             mkWorld (console w) (requests w ++ [urlOf cityCode])))
    /\ (exists seg,
          nth_error
            (split (trim (text (load P html
                      BBCWeatherScraper.SELECTORS.locationName)))
                   separator) 0 = Some seg)
    /\ (load P html BBCWeatherScraper.SELECTORS.locationName = [] ->
        city report = [])
    /\ (items = [] -> weekList report = [])
    /\ (forall (i : nat) (e : Element),
          i < 7 -> nth_error items i = Some e ->
          exists d,
            nth_error (weekList report) i = Some d
            /\ (elemFind e (BBCWeatherScraper.SELECTORS.dayTitle i) = [] ->
                day d = [])
            /\ (elemFind e (BBCWeatherScraper.SELECTORS.forecastDescription i)
                = [] -> shortForecast d = [])
            /\ (elemFind e (BBCWeatherScraper.SELECTORS.temperature i) = [] ->
                temperature d = [] /\ highTemp d = [] /\ lowTemp d = [])).
Proof.
  intros P html report items.
  split; [|split; [|split; [|split; [|split; [|split]]]]].
  - intros w. now rewrite parseWeatherDataOf_run.
  - intros data w e H. rewrite parseWeatherDataOf_run in H.
    destruct data as [body|json]; cbn [loadResult] in H.
    + discriminate H.
    + exists json. split; [reflexivity|].
      destruct (loadValue P json); cbn in H; congruence.
  - intros cityCode w H.
    rewrite fetchCityWeather_run, (fetched_text _ _ _ H). unfold after.
    now rewrite app_nil_r.
  - exists (city report). apply extractCityName_first_segment.
  - intros H. now apply extractCityName_absent.
  - intros H. subst report. unfold BBCWeatherScraper.parseWeatherData.
    cbn [weekList]. rewrite extractWeeklyForecast_eq. subst items.
    now rewrite H.
  - intros i e Hi He.
    exists (BBCWeatherScraper.extractDayDetails (wrap e) i). split.
    + subst report. rewrite (weekList_nth P html Hi). fold items.
      now rewrite He.
    + unfold BBCWeatherScraper.extractDayDetails.
      cbn [day shortForecast temperature highTemp lowTemp].
      split; [|split]; intros H; rewrite (find_wrap_absent _ _ H);
        repeat split.
Qed.

(** A page with neither location element nor list items. *)
Lemma extraction_never_throws_witness :
  BBCWeatherScraper.fetchCityWeather
    (Fixture.serving Fixture.blankPage) "cairo" emptyWorld
  = (inr (mkCityWeatherReport [] []),
     mkWorld [] ["https://www.bbc.com/weather/360630"]).
Proof.
  apply (proj1 (proj2 (proj2
           (extraction_never_throws (Fixture.serving Fixture.blankPage)
              (lit "<html></html>"))))).
  reflexivity.
Defined.

Lemma getCairoWeather_run (P : Platform) (w : World) :
  Cairo.getCairoWeather P w
  = match fetched P w cairoUrl with
    | inl e => (inr None, after w cairoUrl [Error (cairoErrorLine e)])
    | inr root =>
        let details := Cairo.scrape root in
        match nth_error (Cairo.weekList details) 0 with
        | None =>
            (inr None,
             after w cairoUrl
               [Error (cairoErrorLine (readOfUndefined "highTemp"))])
        | Some d =>
            (inr (Some details),
             after w cairoUrl
               [Log [PString "City: "; PMaybeText (Cairo.city details);
                     PString Cairo.tab; PText (Cairo.highTemp d)];
                Log [PString "Hight: "; PText (Cairo.highTemp d);
                     PString "Low: "; PText (Cairo.lowTemp d)]])
        end
    end.
Proof.
  unfold Cairo.getCairoWeather, tryCatch, bind, axios_get, cheerio_load,
    fetched.
  fold cairoUrl.
  destruct (respond P (requests w) cairoUrl) as [e|data]; [reflexivity|].
  destruct (loadResult P data) as [e|root]; [reflexivity|].
  cbv zeta.
  destruct (nth_error (Cairo.weekList (Cairo.scrape root)) 0) as [d|];
    unfold console_log, console_error, ret, throw, after, cairoErrorLine;
    cbn; try rewrite <- app_assoc; reflexivity.
Qed.

(* ===================================================================== *)
(** ** Catalog lookup and transport failures *)
(* ===================================================================== *)

Lemma catalog_lookup (cityCode : string) :
  In cityCode (map fst CITIES) ->
  exists code, getProperty CITIES cityCode = Some code /\ code <> EmptyString.
Proof.
  cbn. intros H.
  repeat (destruct H as [<-|H]; [eexists; split; [reflexivity|discriminate]|]).
  destruct H.
Qed.

Lemma fetchCityWeather_requests (P : Platform) (cityCode : string)
  (w : World) :
  requests (snd (BBCWeatherScraper.fetchCityWeather P cityCode w))
  = requests w ++ [urlOf cityCode].
Proof.
  rewrite fetchCityWeather_run.
  now destruct (fetched P w (urlOf cityCode)).
Qed.

(** C5, as the code has it.  [fetchCityWeather] does not check the
    identifier against the catalog: for every identifier, of the catalog
    or not, the request is issued, exactly once.  For every identifier of
    the catalog the lookup succeeds with a non-empty location code, and the
    request goes to the base URL followed by that code. *)
Theorem fetch_issues_one_request_for_any_identifier :
  forall (P : Platform) (cityCode : string) (w : World),
    let run := BBCWeatherScraper.fetchCityWeather P cityCode w in
    requests (snd run) = requests w ++ [urlOf cityCode]
    /\ (In cityCode (map fst CITIES) ->
        exists code,
          getProperty CITIES cityCode = Some code
          /\ code <> EmptyString
          /\ requests (snd run)
             = requests w ++ [(BBC_WEATHER_BASE_URL ++ code)%string]).
Proof.
  intros P cityCode w run. subst run. split.
  - apply fetchCityWeather_requests.
  - intros Hin. destruct (catalog_lookup Hin) as (code & Hcode & Hne).
    exists code. split; [exact Hcode|]. split; [exact Hne|].
    rewrite fetchCityWeather_requests. unfold urlOf.
    now rewrite (memberText_own _ _ Hcode).
Qed.

(** The identifier [london] of the catalog. *)
Lemma fetch_issues_one_request_for_any_identifier_witness :
  exists code,
    getProperty CITIES "london" = Some code
    /\ code <> EmptyString
    /\ requests (snd (BBCWeatherScraper.fetchCityWeather
                        (Fixture.serving Fixture.cairoPage) "london"
                        emptyWorld))
       = requests emptyWorld ++ [(BBC_WEATHER_BASE_URL ++ code)%string].
Proof.
  apply (fetch_issues_one_request_for_any_identifier
           (Fixture.serving Fixture.cairoPage) "london" emptyWorld).
  simpl. tauto.
Defined.

(** C5 as stated fails: [paris] is no key of the catalog, yet the request
    is issued (to the base URL followed by [undefined]) and, the request
    being answered, a report is returned. *)
Lemma unknown_identifier_reaches_the_network :
  getProperty CITIES "paris" = None
  /\ BBCWeatherScraper.fetchCityWeather
       (Fixture.serving Fixture.blankPage) "paris" emptyWorld
     = (inr (mkCityWeatherReport [] []),
        mkWorld [] ["https://www.bbc.com/weather/undefined"])
  /\ ~ (forall (P : Platform) (cityCode : string) (w : World),
           getProperty CITIES cityCode = None ->
           (exists e,
               fst (BBCWeatherScraper.fetchCityWeather P cityCode w) = inl e)
           /\ requests (snd (BBCWeatherScraper.fetchCityWeather P cityCode w))
              = requests w).
Proof.
  split; [reflexivity|]. split; [reflexivity|].
  intros H.
  destruct (H (Fixture.serving Fixture.blankPage) "paris" emptyWorld eq_refl)
    as [_ Hreq].
  discriminate Hreq.
Qed.

(** C6. When the transport rejects the request, [fetchCityWeather]
    writes one console line and throws the same error to its caller; no
    report is returned and the request was made exactly once.  For an
    [AxiosError] (which is how [axios.get] reports a refused connection, a
    DNS failure or a status outside 2xx) the line carries the label
    ["Network Error:"] and the error's message. *)
Theorem transport_failure_is_logged_and_rethrown :
  forall (P : Platform) (cityCode : string) (w : World) (e : JSError),
    respond P (requests w) (urlOf cityCode) = inl e ->
    BBCWeatherScraper.fetchCityWeather P cityCode w
    = (inl e,
       mkWorld (console w ++ [Error (errorLine e)])
               (requests w ++ [urlOf cityCode]))
    /\ (isAxiosError e = true ->
        errorLine e = [PString "Network Error:"; PString (message e)]).
Proof.
  intros P cityCode w e Hresp. split.
  - now rewrite fetchCityWeather_run, (fetched_rejected _ _ _ Hresp).
  - intros Hax. unfold errorLine. now rewrite Hax.
Qed.

(** A refused connection while fetching [cairo]. *)
Lemma transport_failure_is_logged_and_rethrown_witness :
  BBCWeatherScraper.fetchCityWeather Fixture.offline "cairo" emptyWorld
  = (inl (AxiosError "connect ECONNREFUSED"),
     mkWorld
       [Error [PString "Network Error:"; PString "connect ECONNREFUSED"]]
       ["https://www.bbc.com/weather/360630"]).
Proof.
  apply (transport_failure_is_logged_and_rethrown
           Fixture.offline "cairo" emptyWorld
           (e := AxiosError "connect ECONNREFUSED")).
  reflexivity.
Defined.

(* ===================================================================== *)
(** ** The reporting utility *)
(* ===================================================================== *)

(** [logWeatherForCity] never throws: its promise always resolves. *)
Lemma logWeatherForCity_resolves (P : Platform) (cityCode : string)
  (w : World) : fst (logWeatherForCity P cityCode w) = inr tt.
Proof.
  rewrite logWeatherForCity_run.
  destruct (fetched P w (urlOf cityCode)) as [e|root]; [reflexivity|].
  cbv zeta. now destruct (nth_error (weekList (reportOf root)) 0).
Qed.

(** C7, as the code has it.  When the fetch stage or the extraction
    stage fails, so that [fetchCityWeather] throws, [logWeatherForCity]
    writes the line of [handleError] and the line ["Failed to fetch
    weather for <id>:"] with the error to the error console and then
    returns normally: the error does not reach the caller.  Nothing is
    written to the log console, so neither a report nor a summary is
    produced. *)
Theorem logWeatherForCity_logs_fetch_failure :
  forall (P : Platform) (cityCode : string) (w : World) (e : JSError),
    fst (BBCWeatherScraper.fetchCityWeather P cityCode w) = inl e ->
    logWeatherForCity P cityCode w
    = (inr tt,
       mkWorld
         (console w ++ [Error (errorLine e); Error (failedLine cityCode e)])
         (requests w ++ [urlOf cityCode])).
Proof.
  intros P cityCode w e H.
  rewrite fetchCityWeather_run in H. rewrite logWeatherForCity_run.
  destruct (fetched P w (urlOf cityCode)) as [e'|root]; [|discriminate H].
  cbn in H. injection H as ->. reflexivity.
Qed.

(** A refused connection (the fetch stage fails) and an answer that is
    the JSON value [null] (the extraction stage fails) while reporting on
    [cairo]. *)
Lemma logWeatherForCity_logs_fetch_failure_witness :
  logWeatherForCity Fixture.offline "cairo" emptyWorld
  = (inr tt,
     mkWorld
       [Error [PString "Network Error:"; PString "connect ECONNREFUSED"];
        Error [PString "Failed to fetch weather for cairo:";
               PError (AxiosError "connect ECONNREFUSED")]]
       ["https://www.bbc.com/weather/360630"])
  /\ logWeatherForCity Fixture.answeringNull "cairo" emptyWorld
     = (inr tt,
        mkWorld
          [Error [PString "Parsing Error:";
                  PString "cheerio.load() expects a string"];
           Error [PString "Failed to fetch weather for cairo:";
                  PError Fixture.expectsString]]
          ["https://www.bbc.com/weather/360630"]).
Proof.
  split.
  - apply (@logWeatherForCity_logs_fetch_failure Fixture.offline "cairo"
             emptyWorld (AxiosError "connect ECONNREFUSED")).
    reflexivity.
  - apply (@logWeatherForCity_logs_fetch_failure Fixture.answeringNull "cairo"
             emptyWorld Fixture.expectsString).
    reflexivity.
Defined.

(** C7 as stated fails: with the connection refused the fetch stage
    throws, but [logWeatherForCity] returns normally, so its caller sees
    no error. *)
Lemma logWeatherForCity_swallows_fetch_failure :
  fst (BBCWeatherScraper.fetchCityWeather Fixture.offline "cairo" emptyWorld)
  = inl (AxiosError "connect ECONNREFUSED")
  /\ fst (logWeatherForCity Fixture.offline "cairo" emptyWorld) = inr tt
  /\ ~ (forall (P : Platform) (cityCode : string) (w : World) (e : JSError),
           fst (BBCWeatherScraper.fetchCityWeather P cityCode w) = inl e ->
           fst (logWeatherForCity P cityCode w) = inl e).
Proof.
  split; [reflexivity|]. split; [reflexivity|].
  intros H.
  specialize (H Fixture.offline "cairo" emptyWorld
                (AxiosError "connect ECONNREFUSED") eq_refl).
  discriminate H.
Qed.

(** C10. A page without forecast list items gives a report with an empty
    [weekList].  [logWeatherForCity] then prints the report, fails on
    [firstDay.shortForecast], catches the [TypeError], writes it to the
    error console and returns normally; [getCairoWeather] fails on
    [weekList[0].highTemp], catches the [TypeError], writes it to the error
    console and returns [undefined].  Whatever happens,
    [logWeatherForCity] returns normally. *)
Theorem empty_forecast_list_is_caught :
  forall (P : Platform),
    (forall (cityCode : string) (w : World),
        fst (logWeatherForCity P cityCode w) = inr tt)
    /\ (forall (html : jsstring),
          load P html BBCWeatherScraper.SELECTORS.dayCarousel = [] ->
          weekList (BBCWeatherScraper.parseWeatherData P html) = []
          /\ (forall (cityCode : string) (w : World),
                respond P (requests w) (urlOf cityCode) = inr (DataText html) ->
                fst (BBCWeatherScraper.fetchCityWeather P cityCode w)
                = inr (BBCWeatherScraper.parseWeatherData P html)
                /\ logWeatherForCity P cityCode w
                   = (inr tt,
                      mkWorld
                        (console w
                           ++ [Log [PString "Weather Report:";
                                    PJson (BBCWeatherScraper.parseWeatherData
                                             P html)];
                               Error (failedLine cityCode
                                        (readOfUndefined "shortForecast"))])
                        (requests w ++ [urlOf cityCode])))
          /\ (forall (w : World),
                respond P (requests w) cairoUrl = inr (DataText html) ->
                Cairo.getCairoWeather P w
                = (inr None,
                   mkWorld
                     (console w
                        ++ [Error (cairoErrorLine
                                     (readOfUndefined "highTemp"))])
                     (requests w ++ [cairoUrl])))).
Proof.
  intros P. split; [apply logWeatherForCity_resolves|].
  intros html Hnone.
  assert (Hweek : weekList (BBCWeatherScraper.parseWeatherData P html) = []).
  { unfold BBCWeatherScraper.parseWeatherData. cbn [weekList].
    rewrite extractWeeklyForecast_eq. now rewrite Hnone. }
  split; [exact Hweek|]. split.
  - intros cityCode w Hresp. split.
    + now rewrite fetchCityWeather_run, (fetched_text _ _ _ Hresp).
    + rewrite logWeatherForCity_run, (fetched_text _ _ _ Hresp). cbv zeta.
      change (reportOf (load P html))
        with (BBCWeatherScraper.parseWeatherData P html).
      now rewrite Hweek.
  - intros w Hresp. rewrite getCairoWeather_run, (fetched_text _ _ _ Hresp).
    cbv zeta.
    unfold BBCWeatherScraper.SELECTORS.dayCarousel in Hnone.
    unfold Cairo.scrape. cbn [Cairo.weekList Cairo.city]. now rewrite Hnone.
Qed.

(** The fixture page that has a location element and no list items. *)
Lemma empty_forecast_list_is_caught_witness :
  logWeatherForCity (Fixture.serving Fixture.noDaysPage) "cairo" emptyWorld
  = (inr tt,
     mkWorld
       [Log [PString "Weather Report:";
             PJson (mkCityWeatherReport (lit "Cairo") [])];
        Error [PString "Failed to fetch weather for cairo:";
               PError (NativeError "TypeError"
                 "Cannot read properties of undefined (reading 'shortForecast')")]]
       ["https://www.bbc.com/weather/360630"])
  /\ Cairo.getCairoWeather (Fixture.serving Fixture.noDaysPage) emptyWorld
     = (inr None,
        mkWorld
          [Error [PString "ERROR";
                  PError (NativeError "TypeError"
                    "Cannot read properties of undefined (reading 'highTemp')")]]
          ["https://www.bbc.com/weather/292968"]).
Proof.
  destruct (empty_forecast_list_is_caught (Fixture.serving Fixture.noDaysPage))
    as [_ H].
  destruct (H (lit "<html></html>") eq_refl) as (_ & Hlog & Hcairo).
  split.
  - apply (Hlog "cairo" emptyWorld). reflexivity.
  - apply (Hcairo emptyWorld). reflexivity.
Defined.

(* ===================================================================== *)
(** ** The two implementations of the extraction *)
(* ===================================================================== *)

Section Pointwise.
Variables A B : Type.
Variable R : A -> B -> Prop.
Variable f : nat -> Element -> option A.
Variable g : nat -> Element -> option B.

Hypothesis callbacks_agree :
  forall i e,
    match f i e, g i e with
    | Some a, Some b => R a b
    | None, None => True
    | _, _ => False
    end.

(** Two callbacks that agree item by item give related arrays. *)
Lemma filter_map_pointwise (sel : Selection) (k : nat) :
  Forall2 R (filterNotNull (cheerioMapFrom f k sel))
            (filterNotNull (cheerioMapFrom g k sel)).
Proof.
  revert k. induction sel as [|e sel IH]; intros k; cbn [cheerioMapFrom].
  - constructor.
  - pose proof (callbacks_agree k e) as H.
    destruct (f k e) as [a|], (g k e) as [b|]; try contradiction.
    + cbn [filterNotNull]. constructor; [exact H|apply IH].
    + apply IH.
Qed.

End Pointwise.

(** One list item, seen by the callback of [getCairoWeather] and by the
    callback of [extractWeeklyForecast]. *)
Lemma day_callbacks_agree (i : nat) (e : Element) :
  match Cairo.dayCallback i e,
        (if (7 <=? i)%nat then None
         else Some (BBCWeatherScraper.extractDayDetails (wrap e) i)) with
  | Some a, Some b => sameDay a b
  | None, None => True
  | _, _ => False
  end.
Proof.
  unfold Cairo.dayCallback. destruct (7 <=? i)%nat; [exact I|].
  cbv zeta. unfold BBCWeatherScraper.extractDayDetails.
  fold (BBCWeatherScraper.SELECTORS.temperature i).
  fold (BBCWeatherScraper.SELECTORS.dayTitle i).
  fold (BBCWeatherScraper.SELECTORS.forecastDescription i).
  cbv zeta.
  set (tempText := trim (text (find (wrap e)
                     (BBCWeatherScraper.SELECTORS.temperature i)))).
  unfold BBCWeatherScraper.parseTemperature, sameDay.
  destruct (truthy tempText); cbn; [|repeat split].
  destruct (Nat.eqb i 0); cbn; repeat split.
Qed.

Lemma scrape_city (root : Root) :
  Cairo.city (Cairo.scrape root)
  = Some (BBCWeatherScraper.extractCityName root).
Proof.
  unfold Cairo.scrape. cbn [Cairo.city].
  apply extractCityName_first_segment.
Qed.

Lemma scrape_weekList (root : Root) :
  Forall2 sameDay (Cairo.weekList (Cairo.scrape root))
                  (BBCWeatherScraper.extractWeeklyForecast root).
Proof.
  unfold Cairo.scrape, BBCWeatherScraper.extractWeeklyForecast, cheerioMap.
  cbn [Cairo.weekList].
  apply filter_map_pointwise. exact day_callbacks_agree.
Qed.

(** C8. On the same markup, the [details] that [getCairoWeather] computes
    and the report of [parseWeatherData] agree: the same city, as many
    entries, and in each entry the same [day], [shortForecast],
    [temperature], [highTemp] and [lowTemp].  Whenever [getCairoWeather]
    returns an object, it is that [details] for the answered markup. *)
Theorem getCairoWeather_agrees_with_parseWeatherData :
  forall (P : Platform) (html : jsstring),
    let report := BBCWeatherScraper.parseWeatherData P html in
    let details := Cairo.scrape (load P html) in
    Cairo.city details = Some (city report)
    /\ length (Cairo.weekList details) = length (weekList report)
    /\ Forall2 sameDay (Cairo.weekList details) (weekList report)
    /\ (forall (w : World) (returned : Cairo.TCityData),
          respond P (requests w) cairoUrl = inr (DataText html) ->
          fst (Cairo.getCairoWeather P w) = inr (Some returned) ->
          returned = details).
Proof.
  intros P html report details.
  assert (HF : Forall2 sameDay (Cairo.weekList details) (weekList report))
    by apply scrape_weekList.
  split; [apply scrape_city|]. split; [exact (Forall2_length HF)|].
  split; [exact HF|].
  intros w returned Hresp Hret.
  rewrite getCairoWeather_run, (fetched_text _ _ _ Hresp) in Hret.
  cbv zeta in Hret. fold details in Hret.
  destruct (nth_error (Cairo.weekList details) 0); cbn in Hret; congruence.
Qed.

(** [getCairoWeather] run on the ten-day fixture. *)
Lemma getCairoWeather_agrees_with_parseWeatherData_witness :
  exists returned,
    fst (Cairo.getCairoWeather (Fixture.serving Fixture.cairoPage) emptyWorld)
    = inr (Some returned)
    /\ returned = Cairo.scrape Fixture.cairoPage
    /\ Cairo.city returned = Some (lit "Cairo")
    /\ length (Cairo.weekList returned) = 7.
Proof.
  eexists. split; [reflexivity|]. split; [|split; reflexivity].
  apply (proj2 (proj2 (proj2
           (getCairoWeather_agrees_with_parseWeatherData
              (Fixture.serving Fixture.cairoPage) (lit "<html></html>"))))
           emptyWorld);
    reflexivity.
Defined.

(* ===================================================================== *)
(** ** Further properties of the extraction *)
(* ===================================================================== *)

Lemma trimStart_fixed (s : jsstring) :
  (s = [] \/ exists c t, s = c :: t /\ isWhiteSpace c = false) ->
  trimStart s = s.
Proof.
  intros [->|(c & t & -> & Hc)]; [reflexivity|]. cbn. now rewrite Hc.
Qed.

Lemma trimEnd_fixed (s : jsstring) :
  (s = [] \/ exists t c, s = t ++ [c] /\ isWhiteSpace c = false) ->
  trimEnd s = s.
Proof.
  intros [->|(t & c & -> & Hc)]; [reflexivity|]. unfold trimEnd.
  rewrite rev_app_distr. cbn. rewrite Hc. cbn. now rewrite rev_involutive.
Qed.

(** A trimmed string is empty or ends with a code unit that is not white
    space. *)
Lemma trim_last (s : jsstring) :
  trim s = [] \/ exists t c, trim s = t ++ [c] /\ isWhiteSpace c = false.
Proof.
  unfold trim, trimEnd.
  destruct (trimStart_head (rev (trimStart s))) as [E|(c & t & E & Hc)];
    rewrite E.
  - now left.
  - right. exists (rev t), c. now split.
Qed.

Lemma trim_idempotent (s : jsstring) : trim (trim s) = trim s.
Proof.
  unfold trim at 1. rewrite (trimStart_fixed (trim_head s)).
  apply trimEnd_fixed, trim_last.
Qed.

(** X2. The three texts of every entry of an extracted report are trimmed:
    trimming [day], [shortForecast] or [temperature] again changes
    nothing, so none of them starts or ends with white space. *)
Theorem entry_texts_are_trimmed :
  forall (P : Platform) (html : jsstring) (i : nat) (d : WeatherCondition),
    nth_error (weekList (BBCWeatherScraper.parseWeatherData P html)) i = Some d ->
    trim (day d) = day d
    /\ trim (shortForecast d) = shortForecast d
    /\ trim (temperature d) = temperature d.
Proof.
  intros P html i d H. apply weekList_entry in H.
  destruct H as (_ & e & _ & ->).
  unfold BBCWeatherScraper.extractDayDetails.
  cbn [day shortForecast temperature].
  repeat split; apply trim_idempotent.
Qed.

(** The first entry of the ten-day fixture. *)
Lemma entry_texts_are_trimmed_witness :
  exists d,
    nth_error
      (weekList (BBCWeatherScraper.parseWeatherData
                   (Fixture.serving Fixture.cairoPage) [])) 0 = Some d
    /\ trim (day d) = day d.
Proof.
  eexists. split; [reflexivity|].
  apply (entry_texts_are_trimmed (Fixture.serving Fixture.cairoPage) [] 0).
  reflexivity.
Defined.

Lemma parseTemperature_short (t : jsstring) (i : nat) :
  length t <= 3 ->
  BBCWeatherScraper.parseTemperature t i = BBCWeatherScraper.mkTemps t t.
Proof.
  intros Hlen. destruct t as [|c t]; [reflexivity|].
  assert (Ht : c :: t <> []) by easy.
  assert (Hf : firstn 3 (c :: t) = c :: t) by now apply firstn_all2.
  destruct i as [|i].
  - now rewrite (parseTemperature_today Ht), Hf.
  - rewrite (@parseTemperature_later (c :: t) (S i) Ht) by lia.
    rewrite Hf, skipn_all2 by exact Hlen. reflexivity.
Qed.

Lemma parseTemperature_long (t : jsstring) (i : nat) :
  0 < i -> 3 < length t ->
  BBCWeatherScraper.parseTemperature t i
  = BBCWeatherScraper.mkTemps (firstn 3 t) (skipn 3 t).
Proof.
  intros Hi Hlen.
  assert (Ht : t <> []) by (intros ->; cbn in Hlen; lia).
  rewrite (@parseTemperature_later _ _ Ht Hi). unfold orElse.
  destruct (skipn 3 t) eqn:E; [|reflexivity].
  apply (f_equal (@length N)) in E. rewrite length_skipn in E.
  cbn in E. lia.
Qed.

(** X1. For an entry after the first, a token longer than three code units
    is split without loss: [highTemp] followed by [lowTemp] is the token.
    At any index a token of at most three code units is copied whole into
    both fields, and [highTemp] never has more than three code units. *)
Theorem entry_temperature_is_split_without_loss :
  forall (P : Platform) (html : jsstring) (i : nat) (d : WeatherCondition),
    nth_error (weekList (BBCWeatherScraper.parseWeatherData P html)) i = Some d ->
    (0 < i -> 3 < length (temperature d) ->
     highTemp d ++ lowTemp d = temperature d)
    /\ (length (temperature d) <= 3 ->
        highTemp d = temperature d /\ lowTemp d = temperature d)
    /\ length (highTemp d) <= 3.
Proof.
  intros P html i d H. destruct (entry_decomposition _ _ _ H) as [Hh Hl].
  split; [|split].
  - intros Hi Hlen. rewrite Hh, Hl, (@parseTemperature_long _ _ Hi Hlen).
    apply firstn_skipn.
  - intros Hlen. now rewrite Hh, Hl, (@parseTemperature_short _ i Hlen).
  - destruct (Nat.le_gt_cases (length (temperature d)) 3) as [Hlen|Hlen].
    + now rewrite Hh, (@parseTemperature_short _ i Hlen).
    + rewrite Hh. destruct (temperature d) as [|c t]; [cbn; lia|].
      assert (Ht : c :: t <> []) by easy.
      rewrite (proj1 (proj1 (proj2 (parseTemperature_cases (c :: t) i)) Ht)).
      rewrite length_firstn. lia.
Qed.

(** The second entry of the ten-day fixture, whose token has two
    readings. *)
Lemma entry_temperature_is_split_without_loss_witness :
  exists d,
    nth_error
      (weekList (BBCWeatherScraper.parseWeatherData
                   (Fixture.serving Fixture.cairoPage) [])) 1 = Some d
    /\ highTemp d ++ lowTemp d = temperature d.
Proof.
  eexists. split; [reflexivity|].
  apply (entry_temperature_is_split_without_loss
           (Fixture.serving Fixture.cairoPage) [] 1);
    [reflexivity|lia|cbn; lia].
Defined.

Lemma startsWith_app_l (p a b : jsstring) :
  startsWith p a = true -> startsWith p (a ++ b) = true.
Proof.
  revert a. induction p as [|x p IH]; intros [|y a]; cbn; try easy.
  intros H. apply andb_true_iff in H. destruct H as [H1 H2].
  now rewrite H1, (IH _ H2).
Qed.

(** The first segment of a split is a prefix of the string. *)
Lemma splitFrom_first_prefix (sep s seg : jsstring) (rest : list jsstring) :
  splitFrom sep 0 s = seg :: rest -> exists more, s = seg ++ more.
Proof.
  revert seg rest. induction s as [|c s IH]; intros seg rest; cbn [splitFrom].
  - intros H. injection H as <- _. now exists [].
  - destruct (startsWith sep (c :: s)).
    + intros H. injection H as <- _. now exists (c :: s).
    + destruct (splitFrom sep 0 s) as [|seg' rest'] eqn:E.
      * now apply splitFrom_not_nil in E.
      * intros H. injection H as <- _.
        destruct (IH _ _ eq_refl) as [more ->]. now exists more.
Qed.

(** The first segment of a split does not contain the separator. *)
Lemma splitFrom_first_excludes (sep s seg : jsstring) (rest : list jsstring) :
  sep <> [] -> splitFrom sep 0 s = seg :: rest -> includes sep seg = false.
Proof.
  intros Hsep. revert seg rest.
  assert (Hnil : includes sep [] = false) by (destruct sep; easy).
  induction s as [|c s IH]; intros seg rest; cbn [splitFrom].
  - intros H. now injection H as <- _.
  - destruct (startsWith sep (c :: s)) eqn:Hs.
    + intros H. now injection H as <- _.
    + destruct (splitFrom sep 0 s) as [|seg' rest'] eqn:E.
      * now apply splitFrom_not_nil in E.
      * intros H. injection H as <- _. cbn [includes].
        rewrite (IH _ _ eq_refl), orb_false_r.
        destruct (splitFrom_first_prefix _ _ E) as [more Hmore].
        destruct (startsWith sep (c :: seg')) eqn:Hseg; [|reflexivity].
        apply (startsWith_app_l _ _ more) in Hseg.
        cbn [app] in Hseg. rewrite <- Hmore in Hseg. congruence.
Qed.

(** X3. The city of an extracted report never contains the separator
    [" - "], never starts with white space, and is empty exactly when the
    location text is blank (empty once trimmed). *)
Theorem city_has_no_separator :
  forall (P : Platform) (html : jsstring),
    let full :=
      trim (text (load P html BBCWeatherScraper.SELECTORS.locationName)) in
    let name := city (BBCWeatherScraper.parseWeatherData P html) in
    includes separator name = false
    /\ (name = [] \/ exists c t, name = c :: t /\ isWhiteSpace c = false)
    /\ (name = [] <-> full = []).
Proof.
  intros P html full name.
  assert (H : nth_error (splitFrom separator 0 full) 0 = Some name)
    by apply extractCityName_first_segment.
  assert (Hhead : full = [] \/
                  exists c t, full = c :: t /\ isWhiteSpace c = false)
    by apply trim_head.
  clearbody full name.
  destruct (splitFrom separator 0 full) as [|seg rest] eqn:E; [discriminate|].
  cbn in H. injection H as ->.
  destruct (splitFrom_first_prefix _ _ E) as [more Hmore].
  split; [|split].
  - apply (@splitFrom_first_excludes separator full name rest);
      [discriminate|exact E].
  - destruct name as [|c t]; [now left|]. right. exists c, t.
    split; [reflexivity|].
    destruct Hhead as [Hf|(c' & t' & Hf & Hc)]; rewrite Hf in Hmore;
      cbn in Hmore; [discriminate Hmore|].
    now injection Hmore as -> _.
  - split.
    + intros ->. apply splitFrom_first_nil in E. destruct E as [E|E]; trivial.
      destruct Hhead as [Hf|(c & t & Hf & Hc)]; trivial.
      rewrite Hf in E. change separator with (32%N :: lit "- ") in E.
      cbn [startsWith] in E. apply andb_true_iff in E. destruct E as [E _].
      apply N.eqb_eq in E. subst c. discriminate.
    + intros Hf. rewrite Hf in E. cbn in E. now injection E as <- _.
Qed.

(* ===================================================================== *)
(** ** Selectors and catalog *)
(* ===================================================================== *)

Lemma string_length_append (a b : string) :
  String.length (a ++ b)%string = String.length a + String.length b.
Proof. induction a as [|c a IH]; cbn; [reflexivity|now rewrite IH]. Qed.

Lemma string_append_cancel_r (a b t : string) :
  (a ++ t)%string = (b ++ t)%string -> a = b.
Proof.
  revert b. induction a as [|c a IH]; intros [|c' b] H; cbn in H.
  - reflexivity.
  - apply (f_equal String.length) in H. cbn in H.
    rewrite string_length_append in H. lia.
  - apply (f_equal String.length) in H. cbn in H.
    rewrite string_length_append in H. lia.
  - injection H as -> H. f_equal. now apply IH.
Qed.

Lemma string_append_cancel_l (p a b : string) :
  (p ++ a)%string = (p ++ b)%string -> a = b.
Proof.
  induction p as [|c p IH]; cbn; intros H; [exact H|].
  injection H as H. now apply IH.
Qed.

Lemma numberToString_inj (i j : nat) :
  numberToString i = numberToString j -> i = j.
Proof.
  unfold numberToString. intros H.
  apply DecimalNat.Unsigned.to_uint_inj.
  apply (f_equal NilEmpty.uint_of_string) in H.
  rewrite !NilEmpty.usu in H. now injection H.
Qed.

Lemma anchored_selector_inj (suffix : string) (i j : nat) :
  ("a#daylink-" ++ numberToString i ++ suffix)%string
  = ("a#daylink-" ++ numberToString j ++ suffix)%string ->
  i = j.
Proof.
  intros H. apply string_append_cancel_l in H.
  apply string_append_cancel_r in H. now apply numberToString_inj.
Qed.

(** X4. The three selectors of a day are tied to its index: the title,
    description or temperature selectors of two positions are equal only
    when the positions are, and at one position the three selectors are
    pairwise different. *)
Theorem day_selectors_are_per_index :
  forall (i j : nat),
    (BBCWeatherScraper.SELECTORS.dayTitle i
     = BBCWeatherScraper.SELECTORS.dayTitle j -> i = j)
    /\ (BBCWeatherScraper.SELECTORS.forecastDescription i
        = BBCWeatherScraper.SELECTORS.forecastDescription j -> i = j)
    /\ (BBCWeatherScraper.SELECTORS.temperature i
        = BBCWeatherScraper.SELECTORS.temperature j -> i = j)
    /\ BBCWeatherScraper.SELECTORS.dayTitle i
       <> BBCWeatherScraper.SELECTORS.forecastDescription i
    /\ BBCWeatherScraper.SELECTORS.dayTitle i
       <> BBCWeatherScraper.SELECTORS.temperature i
    /\ BBCWeatherScraper.SELECTORS.forecastDescription i
       <> BBCWeatherScraper.SELECTORS.temperature i.
Proof.
  intros i j.
  unfold BBCWeatherScraper.SELECTORS.dayTitle,
    BBCWeatherScraper.SELECTORS.forecastDescription,
    BBCWeatherScraper.SELECTORS.temperature.
  split; [apply anchored_selector_inj|].
  split; [apply anchored_selector_inj|].
  split; [apply anchored_selector_inj|].
  repeat split; intros H; do 2 apply string_append_cancel_l in H;
    discriminate H.
Qed.

(** Positions 3 and 3. *)
Lemma day_selectors_are_per_index_witness : 3 = 3.
Proof.
  apply (day_selectors_are_per_index 3 3). reflexivity.
Defined.

(** X12. The catalog has no duplicate key, so every listed pair is what
    the lookup returns for its key; and two identifiers of the catalog
    with the same request URL are the same identifier. *)
Theorem catalog_urls_are_distinct :
  NoDup (map fst CITIES)
  /\ (forall k v, In (k, v) CITIES -> getProperty CITIES k = Some v)
  /\ (forall a b,
        In a (map fst CITIES) -> In b (map fst CITIES) ->
        urlOf a = urlOf b -> a = b).
Proof.
  split; [|split].
  - cbn. repeat constructor; cbn; intuition discriminate.
  - cbn. intros k v H.
    repeat (destruct H as [H|H]; [injection H as <- <-; reflexivity|]).
    destruct H.
  - cbn. intros a b Ha Hb.
    repeat (destruct Ha as [<-|Ha]);
      repeat (destruct Hb as [<-|Hb]);
      try contradiction; intros H; try reflexivity;
      vm_compute in H; discriminate H.
Qed.

(** The identifier [london] twice. *)
Lemma catalog_urls_are_distinct_witness :
  getProperty CITIES "london" = Some "2643743".
Proof.
  apply catalog_urls_are_distinct. simpl. tauto.
Defined.

(* ===================================================================== *)
(** ** Further properties of the effectful code *)
(* ===================================================================== *)

(** X5. [handleError] never throws and makes no request; it writes exactly
    one line to the error console, whose label tells the kind of error:
    ["Network Error:"] exactly for an Axios error, ["Parsing Error:"]
    exactly for any other [Error], ["Unknown Error:"] exactly for a thrown
    value that is not an [Error]. *)
Theorem handleError_labels_the_kind :
  forall (error : JSError) (w : World),
  exists (label : string) (arg : Printable),
    BBCWeatherScraper.handleError error w
    = (inr tt,
       mkWorld (console w ++ [Error [PString label; arg]]) (requests w))
    /\ (label = "Network Error:" <-> isAxiosError error = true)
    /\ (label = "Parsing Error:" <->
        isAxiosError error = false /\ instanceofError error = true)
    /\ (label = "Unknown Error:" <-> instanceofError error = false).
Proof.
  intros error w. rewrite handleError_run.
  destruct error as [m|n m|v]; cbn;
    eexists; eexists; (split; [reflexivity|]);
    repeat split; intros; try discriminate; try reflexivity;
    intuition discriminate.
Qed.

Lemma logWeatherForCity_shape (P : Platform) (cityCode : string) (w : World) :
  exists (first second : ConsoleEntry),
    logWeatherForCity P cityCode w
    = (inr tt,
       mkWorld (console w ++ [first; second])
               (requests w ++ [urlOf cityCode])).
Proof.
  rewrite logWeatherForCity_run.
  destruct (fetched P w (urlOf cityCode)) as [e|root].
  - now eexists; eexists.
  - cbv zeta.
    destruct (nth_error (weekList (reportOf root)) 0);
      now eexists; eexists.
Qed.

(** X7. Every run of [logWeatherForCity] returns normally, issues exactly
    one request (to the URL of the identifier) and writes exactly two
    console lines. *)
Theorem logWeatherForCity_one_request_two_lines :
  forall (P : Platform) (cityCode : string) (w : World),
  exists (first second : ConsoleEntry),
    logWeatherForCity P cityCode w
    = (inr tt,
       mkWorld (console w ++ [first; second])
               (requests w ++ [urlOf cityCode])).
Proof.
  intros P cityCode w. rewrite logWeatherForCity_run.
  destruct (fetched P w (urlOf cityCode)) as [e|root].
  - exists (Error (errorLine e)), (Error (failedLine cityCode e)).
    reflexivity.
  - cbv zeta.
    destruct (nth_error (weekList (reportOf root)) 0) as [d|];
      eexists; eexists; reflexivity.
Qed.

(** X8. When the request is answered and the page has a first list item,
    [logWeatherForCity] prints the report and then the summary of that
    item; the summary's high and low values are the same text, the first
    three code units of the item's trimmed temperature text. *)
Theorem logWeatherForCity_prints_first_day :
  forall (P : Platform) (cityCode : string) (w : World) (html : jsstring)
         (e : Element),
    respond P (requests w) (urlOf cityCode) = inr (DataText html) ->
    nth_error (load P html BBCWeatherScraper.SELECTORS.dayCarousel) 0
    = Some e ->
    let report := BBCWeatherScraper.parseWeatherData P html in
    let forecast :=
      trim (text (find (wrap e)
                    (BBCWeatherScraper.SELECTORS.forecastDescription 0))) in
    let high :=
      firstn 3
        (trim (text (find (wrap e)
                       (BBCWeatherScraper.SELECTORS.temperature 0)))) in
    logWeatherForCity P cityCode w
    = (inr tt,
       mkWorld
         (console w
            ++ [Log [PString "Weather Report:"; PJson report];
                Log [PText (summaryText (city report) forecast high high)]])
         (requests w ++ [urlOf cityCode])).
Proof.
  intros P cityCode w html e Hresp He report forecast high.
  rewrite logWeatherForCity_run, (fetched_text _ _ _ Hresp). cbv zeta.
  change (reportOf (load P html)) with report.
  assert (Hd : nth_error (weekList report) 0
               = Some (BBCWeatherScraper.extractDayDetails (wrap e) 0)).
  { subst report. rewrite weekList_nth by lia. now rewrite He. }
  rewrite Hd. unfold after. do 4 f_equal.
  unfold BBCWeatherScraper.extractDayDetails.
  cbn [shortForecast highTemp lowTemp]. fold forecast.
  destruct (trim (text (find (wrap e)
              (BBCWeatherScraper.SELECTORS.temperature 0)))) as [|c t] eqn:Et.
  - subst high. reflexivity.
  - rewrite (@parseTemperature_today (c :: t)) by easy. reflexivity.
Qed.

(** Reporting on the ten-day fixture. *)
Lemma logWeatherForCity_prints_first_day_witness :
  logWeatherForCity (Fixture.serving Fixture.cairoPage) "cairo" emptyWorld
  = (inr tt,
     mkWorld
       [Log [PString "Weather Report:";
             PJson (BBCWeatherScraper.parseWeatherData
                      (Fixture.serving Fixture.cairoPage)
                      (lit "<html></html>"))];
        Log [PText (summaryText (lit "Cairo") (lit "Sunny")
                      (lit "18" ++ [degree]) (lit "18" ++ [degree]))]]
       ["https://www.bbc.com/weather/360630"]).
Proof.
  apply (logWeatherForCity_prints_first_day
           (Fixture.serving Fixture.cairoPage) "cairo" emptyWorld
           (html := lit "<html></html>")
           (e := Fixture.dayItem 0 (lit "Today") (lit "Sunny") Fixture.temp2));
    reflexivity.
Defined.

Lemma scrape_weekList_nil (root : Root) :
  Cairo.weekList (Cairo.scrape root) = [] <->
  root BBCWeatherScraper.SELECTORS.dayCarousel = [].
Proof.
  pose proof (Forall2_length (scrape_weekList root)) as Hlen.
  rewrite extractWeeklyForecast_eq, length_mapIndexedFrom, length_firstn
    in Hlen.
  split; intros H.
  - apply length_zero_iff_nil. rewrite H in Hlen. cbn [length] in Hlen. lia.
  - apply length_zero_iff_nil. rewrite Hlen, H. reflexivity.
Qed.

(** X9. [getCairoWeather] never throws and always issues exactly one
    request, to the location code of [abuDhabi]; it returns [undefined]
    exactly when that request is rejected, or [cheerio.load] throws on the
    answer, or the loaded page has no forecast list item. *)
Theorem getCairoWeather_requests_abuDhabi :
  forall (P : Platform) (w : World),
    (exists (result : option Cairo.TCityData) (lines : list ConsoleEntry),
        Cairo.getCairoWeather P w
        = (inr result,
           mkWorld (console w ++ lines)
                   (requests w ++ ["https://www.bbc.com/weather/292968"])))
    /\ (fst (Cairo.getCairoWeather P w) = inr None <->
        (exists e, respond P (requests w) cairoUrl = inl e)
        \/ (exists data,
               respond P (requests w) cairoUrl = inr data
               /\ ((exists e, loadResult P data = inl e)
                   \/ (exists root,
                          loadResult P data = inr root
                          /\ root BBCWeatherScraper.SELECTORS.dayCarousel
                             = [])))).
Proof.
  intros P w. rewrite getCairoWeather_run. unfold fetched.
  destruct (respond P (requests w) cairoUrl) as [e|data].
  - split; [now eexists; eexists|]. split; [|reflexivity].
    intros _. left. now exists e.
  - destruct (loadResult P data) as [e|root] eqn:El.
    + split; [now eexists; eexists|]. split; [|reflexivity].
      intros _. right. exists data. split; [reflexivity|].
      left. now exists e.
    + cbv zeta.
      pose proof (scrape_weekList_nil root) as Hnil.
      destruct (Cairo.weekList (Cairo.scrape root)) as [|d l] eqn:E.
      * split; [now eexists; eexists|]. split; [|reflexivity].
        intros _. right. exists data. split; [reflexivity|].
        right. exists root. split; [exact El|]. now apply Hnil.
      * split; [now eexists; eexists|]. cbn. split; [discriminate|].
        intros [[e He]|(data' & Hd & [[e He]|(root' & Hr & Hitems)])];
          try discriminate.
        injection Hd as <-. rewrite El in He. discriminate He.
        injection Hd as <-. rewrite El in Hr. injection Hr as <-.
        apply Hnil in Hitems. discriminate Hitems.
Qed.

(** X10. [getCairoWeather] and [fetchCityWeather('abuDhabi')], run from
    the same state, request the same URL, which is not the URL of
    [cairo]; and whenever [getCairoWeather] returns an object, the other
    returns a report with the same city and, entry by entry, the same
    five fields. *)
Theorem getCairoWeather_is_fetch_of_abuDhabi :
  forall (P : Platform) (w : World),
    requests (snd (Cairo.getCairoWeather P w))
    = requests (snd (BBCWeatherScraper.fetchCityWeather P "abuDhabi" w))
    /\ cairoUrl <> urlOf "cairo"
    /\ (forall (details : Cairo.TCityData),
          fst (Cairo.getCairoWeather P w) = inr (Some details) ->
          exists report,
            fst (BBCWeatherScraper.fetchCityWeather P "abuDhabi" w)
            = inr report
            /\ Cairo.city details = Some (city report)
            /\ Forall2 sameDay (Cairo.weekList details) (weekList report)).
Proof.
  intros P w. rewrite getCairoWeather_run, fetchCityWeather_run.
  change (urlOf "abuDhabi") with cairoUrl.
  split; [|split].
  - destruct (fetched P w cairoUrl) as [e|root]; [reflexivity|].
    cbv zeta. now destruct (nth_error (Cairo.weekList (Cairo.scrape root)) 0).
  - discriminate.
  - intros details H.
    destruct (fetched P w cairoUrl) as [e|root]; [discriminate H|].
    cbv zeta in H.
    destruct (nth_error (Cairo.weekList (Cairo.scrape root)) 0);
      [|discriminate H].
    cbn in H. injection H as <-.
    exists (reportOf root).
    split; [reflexivity|]. split; [apply scrape_city|apply scrape_weekList].
Qed.

(** [getCairoWeather] on the ten-day fixture. *)
Lemma getCairoWeather_is_fetch_of_abuDhabi_witness :
  exists report,
    fst (BBCWeatherScraper.fetchCityWeather
           (Fixture.serving Fixture.cairoPage) "abuDhabi" emptyWorld)
    = inr report
    /\ Cairo.city (Cairo.scrape Fixture.cairoPage) = Some (city report)
    /\ Forall2 sameDay (Cairo.weekList (Cairo.scrape Fixture.cairoPage))
                       (weekList report).
Proof.
  apply (getCairoWeather_is_fetch_of_abuDhabi
           (Fixture.serving Fixture.cairoPage) emptyWorld).
  reflexivity.
Defined.

(** X11. The program of [index.ts] ([Main], whatever its arguments)
    returns normally on every run, issues exactly one request, to the
    location code of [newYork], and writes exactly two console lines. *)
Theorem Main_reports_newYork :
  forall (P : Platform) (A : Type) (args : list A) (w : World),
  exists (first second : ConsoleEntry),
    Main P args w
    = (inr tt,
       mkWorld (console w ++ [first; second])
               (requests w ++ ["https://www.bbc.com/weather/5128581"]))
    /\ program P w = Main P args w.
Proof.
  intros P A args w. unfold program, Main, bind, ret.
  destruct (logWeatherForCity_shape P "newYork" w) as (l1 & l2 & ->).
  now exists l1, l2.
Qed.

(** X6. [fetchCityWeather] writes to the console exactly when it throws.
    A request answered with text leaves the console as it was and returns
    the report of that text; a returned report always comes from an
    answered request whose data [cheerio.load] accepted; every throw comes
    with exactly one line on the error console; and when the answer is a
    value that is not a string and [cheerio.load] throws on it, that
    error is logged and thrown again, after the one request. *)
Theorem fetchCityWeather_is_silent_on_success :
  forall (P : Platform) (cityCode : string) (w : World),
    let run := BBCWeatherScraper.fetchCityWeather P cityCode w in
    (forall html,
        respond P (requests w) (urlOf cityCode) = inr (DataText html) ->
        run = (inr (BBCWeatherScraper.parseWeatherData P html),
               mkWorld (console w) (requests w ++ [urlOf cityCode])))
    /\ (forall report,
          fst run = inr report ->
          console (snd run) = console w
          /\ exists data root,
               respond P (requests w) (urlOf cityCode) = inr data
               /\ loadResult P data = inr root
               /\ report = reportOf root)
    /\ (forall e,
          fst run = inl e ->
          console (snd run) = console w ++ [Error (errorLine e)])
    /\ (forall json e,
          respond P (requests w) (urlOf cityCode) = inr (DataValue json) ->
          loadValue P json = inl e ->
          run = (inl e,
                 mkWorld (console w ++ [Error (errorLine e)])
                         (requests w ++ [urlOf cityCode]))).
Proof.
  intros P cityCode w run. subst run. rewrite fetchCityWeather_run.
  split; [|split; [|split]].
  - intros html H. rewrite (fetched_text _ _ _ H). unfold after.
    now rewrite app_nil_r.
  - intros report H. unfold fetched in *.
    destruct (respond P (requests w) (urlOf cityCode)) as [e|data];
      [discriminate H|].
    destruct (loadResult P data) as [e|root] eqn:El; [discriminate H|].
    cbn in H. injection H as <-. split.
    + cbn. apply app_nil_r.
    + now exists data, root.
  - intros e H.
    destruct (fetched P w (urlOf cityCode)) as [e'|root]; [|discriminate H].
    cbn in H. injection H as ->. reflexivity.
  - intros json e Hresp Hload. unfold fetched. rewrite Hresp.
    cbn [loadResult]. now rewrite Hload.
Qed.

(** Fetching [cairo] from the ten-day fixture, and from a network that
    answers with the JSON value [null]. *)
Lemma fetchCityWeather_is_silent_on_success_witness :
  BBCWeatherScraper.fetchCityWeather
    (Fixture.serving Fixture.cairoPage) "cairo" emptyWorld
  = (inr (BBCWeatherScraper.parseWeatherData
            (Fixture.serving Fixture.cairoPage) (lit "<html></html>")),
     mkWorld [] ["https://www.bbc.com/weather/360630"])
  /\ BBCWeatherScraper.fetchCityWeather Fixture.answeringNull "cairo"
       emptyWorld
     = (inl Fixture.expectsString,
        mkWorld
          [Error [PString "Parsing Error:";
                  PString "cheerio.load() expects a string"]]
          ["https://www.bbc.com/weather/360630"]).
Proof.
  split.
  - apply (fetchCityWeather_is_silent_on_success
             (Fixture.serving Fixture.cairoPage) "cairo" emptyWorld).
    reflexivity.
  - apply (proj2 (proj2 (proj2
             (fetchCityWeather_is_silent_on_success
                Fixture.answeringNull "cairo" emptyWorld)))
             (lit "null"));
      reflexivity.
Defined.

(** X13. Two reports one after the other: whatever happens to the first,
    the second is still made.  Both requests are issued, in order, four
    console lines are written, and the sequence returns normally. *)
Theorem reports_in_sequence_both_run :
  forall (P : Platform) (a b : string) (w : World),
  exists (lines : list ConsoleEntry),
    length lines = 4
    /\ (logWeatherForCity P a ;; logWeatherForCity P b)%eff w
       = (inr tt,
          mkWorld (console w ++ lines)
                  (requests w ++ [urlOf a; urlOf b])).
Proof.
  intros P a b w. unfold bind.
  destruct (logWeatherForCity_shape P a w) as (l1 & l2 & ->).
  destruct (logWeatherForCity_shape P b
              (mkWorld (console w ++ [l1; l2]) (requests w ++ [urlOf a])))
    as (l3 & l4 & ->).
  exists [l1; l2; l3; l4]. split; [reflexivity|].
  cbn [console requests]. now rewrite <- !app_assoc.
Qed.

(** X14. Two fetches one after the other: when the first request is
    rejected the sequence throws that error and the second request is
    never issued. *)
Theorem failed_fetch_stops_the_sequence :
  forall (P : Platform) (a b : string) (w : World) (e : JSError),
    respond P (requests w) (urlOf a) = inl e ->
    (BBCWeatherScraper.fetchCityWeather P a ;;
     BBCWeatherScraper.fetchCityWeather P b)%eff w
    = (inl e,
       mkWorld (console w ++ [Error (errorLine e)])
               (requests w ++ [urlOf a])).
Proof.
  intros P a b w e H. unfold bind.
  now rewrite fetchCityWeather_run, (fetched_rejected _ _ _ H).
Qed.

(** Two fetches with the connection refused. *)
Lemma failed_fetch_stops_the_sequence_witness :
  (BBCWeatherScraper.fetchCityWeather Fixture.offline "cairo" ;;
   BBCWeatherScraper.fetchCityWeather Fixture.offline "london")%eff emptyWorld
  = (inl (AxiosError "connect ECONNREFUSED"),
     mkWorld
       [Error [PString "Network Error:"; PString "connect ECONNREFUSED"]]
       ["https://www.bbc.com/weather/360630"]).
Proof.
  apply (failed_fetch_stops_the_sequence Fixture.offline "cairo" "london"
           emptyWorld (e := AxiosError "connect ECONNREFUSED")).
  reflexivity.
Defined.
